(** * Ledger and reporting engine of the shop accounting page (script.js)

    A shallow embedding of the event handlers of [script.js] and of the
    functions they share, with the properties of the ledger stated over it.

    Modelling conventions.
    - A handler reads the persisted document with [loadState], mutates the
      copy and writes it back with [saveState].  JSON serialisation is taken
      to be the identity on well-formed documents, so a handler is a function
      from the document (and what it reads from the form and the clock) to an
      [outcome]: the document it saved, or the reason it returned early.
    - JavaScript numbers: [parseFloat] and [parseInt] return a number or NaN,
      written [Num x] and [NaN].  Amounts of money are exact rationals ([Q]),
      quantities are integers ([Z]); rounding and the infinities of binary
      floating point are outside the model.  Numeric equality of amounts is
      [Qeq].
    - Strings are byte strings.  [localeCompare] on dates is the byte-wise
      lexicographic order, which is what it computes on the [YYYY-MM-DD]
      values of a date input; on names it stands for the collation order,
      and only the membership of the sorted rows is used.  [trim] and
      [toLowerCase] act on ASCII.
    - [Array.prototype.sort] is stable (ECMAScript 2019).
    - [state.items] is a JavaScript object: [Object.values] enumerates it in
      insertion order (keys that spell an array index apart), so it is an
      association list with unique keys, new keys appended.  [quantities] and [monthlySnapshots] are only ever read
      and written by key: they are finite maps. *)

From Stdlib Require Import ZArith QArith List Sorted Ascii String Bool Lia.
From stdpp Require Import base option list gmap strings pretty.
Import ListNotations.

Local Open Scope string_scope.
Local Open Scope list_scope.
Local Open Scope Z_scope.

(** ** JavaScript values *)

(** The result of [parseFloat] or [parseInt]. *)
Inductive parsed (A : Type) : Type :=
  | NaN : parsed A
  | Num : A -> parsed A.
Arguments NaN {A}.
Arguments Num {A} _.

(** [!s] on a string. *)
Definition is_empty (s : string) : bool :=
  match s with EmptyString => true | String _ _ => false end.

(** [x || 0] on a number: [0] is the only falsy amount of the model. *)
Definition orZero (x : Q) : Q := if Qeq_bool x 0 then 0%Q else x.

(** ** String functions *)

Definition is_space (c : ascii) : bool :=
  let n := N_of_ascii c in
  ((9 <=? n)%N && (n <=? 13)%N) || (n =? 32)%N.

Fixpoint trimStart (s : string) : string :=
  match s with
  | EmptyString => EmptyString
  | String c s' => if is_space c then trimStart s' else s
  end.

(** Drops the trailing white space: a character is kept when it is not a
    space or when something is kept after it. *)
Fixpoint trimEnd (s : string) : string :=
  match s with
  | EmptyString => EmptyString
  | String c s' =>
      match trimEnd s' with
      | EmptyString => if is_space c then EmptyString else String c EmptyString
      | t => String c t
      end
  end.

Definition trim (s : string) : string := trimEnd (trimStart s).

Definition lower_ascii (c : ascii) : ascii :=
  let n := N_of_ascii c in
  if ((65 <=? n)%N && (n <=? 90)%N)%bool then ascii_of_N (n + 32) else c.

Fixpoint toLowerCase (s : string) : string :=
  match s with
  | EmptyString => EmptyString
  | String c s' => String (lower_ascii c) (toLowerCase s')
  end.

(** [a.localeCompare(b)]: negative, zero or positive. *)
Definition localeCompare (a b : string) : comparison := String.compare a b.

(** [s.slice(0, n)]. *)
Definition slice0 (n : nat) (s : string) : string := String.substring 0 n s.

(** ** Stable sort

    [l.sort(cmp)]: an element moves in front of another only when [cmp]
    says it is strictly smaller, so equal elements keep their order. *)
Section Sort.
Context {A : Type} (cmp : A -> A -> comparison).

Fixpoint insert_sorted (x : A) (l : list A) : list A :=
  match l with
  | [] => [x]
  | y :: l' =>
      match cmp x y with
      | Gt => y :: insert_sorted x l'
      | _ => x :: y :: l'
      end
  end.

Fixpoint sort (l : list A) : list A :=
  match l with
  | [] => []
  | x :: l' => insert_sorted x (sort l')
  end.
End Sort.

(** ** Data model *)

Record PriceEntry := mkPriceEntry {
  pe_price : Q;
  pe_date : string
}.

Record QtyEntry := mkQtyEntry {
  qh_month : string;
  qh_date : string;
  qh_delta : Z;
  qh_source : string
}.

Record Item := mkItem {
  name : string;
  priceHistory : list PriceEntry;
  quantities : gmap string Z;
  qtyHistory : list QtyEntry
}.

Record Sale := mkSale {
  s_date : string;
  s_buyer : string;
  s_address : string;
  s_contact : string;
  s_item : string;
  s_price : Q;
  s_qty : Z;
  s_total : Q;
  s_profit : Q;
  s_profitIsManual : bool
}.

Record Snapshot := mkSnapshot {
  generatedAt : string;
  itemsTotal : Q;
  salesTotal : Q;
  salesProfit : Q;
  salesCount : nat
}.

Record State := mkState {
  items : list (string * Item);
  sales : list Sale;
  monthlySnapshots : gmap string Snapshot
}.

(** The document [loadState] returns when nothing is stored. *)
Definition emptyState : State := mkState [] [] ∅.

(** *** The [items] object *)

(** [items[key]] *)
Fixpoint getItem (key : string) (its : list (string * Item)) : option Item :=
  match its with
  | [] => None
  | (k, it) :: its' => if decide (k = key) then Some it else getItem key its'
  end.

(** [items[key] = it]: in place when the key exists, appended otherwise. *)
Fixpoint setItem (key : string) (it : Item) (its : list (string * Item))
  : list (string * Item) :=
  match its with
  | [] => [(key, it)]
  | (k, it') :: its' =>
      if decide (k = key) then (k, it) :: its' else (k, it') :: setItem key it its'
  end.

(** [delete items[key]] *)
Fixpoint deleteItem (key : string) (its : list (string * Item))
  : list (string * Item) :=
  match its with
  | [] => []
  | (k, it) :: its' =>
      if decide (k = key) then deleteItem key its' else (k, it) :: deleteItem key its'
  end.

(** [Object.values(items)] *)
Definition values (its : list (string * Item)) : list Item := map snd its.

(** ** Shared functions *)

Definition normalizeName (name : string) : string := toLowerCase (trim name).

(** [ymd(date)]; [today] is [new Date().toISOString().slice(0,10)]. *)
Definition ymd (today date : string) : string :=
  if is_empty date then today else date.

Definition ym (today date : string) : string := slice0 7 (ymd today date).

Definition byDate (a b : PriceEntry) : comparison :=
  localeCompare (pe_date a) (pe_date b).

Definition getLatestPrice (item : Item) : Q :=
  let hist := priceHistory item in
  if decide (length hist = 0%nat) then 0%Q
  else match last (sort byDate hist) with
       | Some e => pe_price e
       | None => 0%Q
       end.

(** [item.quantities[month] || 0] *)
Definition stock (item : Item) (month : string) : Z :=
  default 0 (quantities item !! month).

Definition logQuantityChange (item : Item) (month dateStr : string) (delta : Z)
    (source : string) : Item :=
  if decide (delta = 0) then item
  else mkItem (name item) (priceHistory item) (quantities item)
         (qtyHistory item ++ [mkQtyEntry month dateStr delta source]).

(** [item.quantities[month] = q] *)
Definition setStock (item : Item) (month : string) (q : Z) : Item :=
  mkItem (name item) (priceHistory item) (<[month := q]> (quantities item))
    (qtyHistory item).

(** [item.priceHistory.push(e)] *)
Definition pushPrice (item : Item) (e : PriceEntry) : Item :=
  mkItem (name item) (priceHistory item ++ [e]) (quantities item)
    (qtyHistory item).

(** ** Event handlers

    What a handler did to the persisted document: it reached [saveState]
    with a new document, it showed an [alert] and returned, or it returned
    silently.  In the last two cases nothing was written. *)
Inductive outcome : Type :=
  | Saved : State -> outcome
  | Alerted : string -> outcome
  | Returned : outcome.

(** The document in the store after a handler ran on [st]. *)
Definition persisted (st : State) (o : outcome) : State :=
  match o with
  | Saved st' => st'
  | Alerted _ | Returned => st
  end.

Definition withItems (st : State) (its : list (string * Item)) : State :=
  mkState its (sales st) (monthlySnapshots st).

(** The month shown in the items table:
    [reportMonth.value || new Date().toISOString().slice(0,7)]. *)
Definition viewMonth (today reportMonth : string) : string :=
  if is_empty reportMonth then slice0 7 today else reportMonth.

(** *** Add item ([upsertItem]): the submit handler of [add-form] *)
Definition upsertItem (today nameField : string) (price : parsed Q)
    (qty : parsed Z) (date : string) (st : State) : outcome :=
  let name := trim nameField in
  match price, qty with
  | Num price, Num qty =>
      if is_empty name || (qty <=? 0) then
        Alerted "Please provide valid name, price, and quantity."
      else
        let monthKey := ym today date in
        let key := normalizeName name in
        match getItem key (items st) with
        | None =>
            Saved (withItems st (setItem key
              (mkItem (trim name)
                 [mkPriceEntry price (ymd today date)]
                 {[ monthKey := qty ]}
                 [mkQtyEntry monthKey (ymd today date) qty "addForm"])
              (items st)))
        | Some item =>
            let latestPrice := getLatestPrice item in
            let item1 :=
              if negb (Qeq_bool latestPrice price)
              then pushPrice item (mkPriceEntry price (ymd today date))
              else item in
            let item2 := setStock item1 monthKey (stock item1 monthKey + qty) in
            let item3 :=
              logQuantityChange item2 monthKey (ymd today date) qty "addForm" in
            Saved (withItems st (setItem key item3 (items st)))
        end
  | _, _ => Alerted "Please provide valid name, price, and quantity."
  end.

(** *** Update price: the submit handler of [update-form] *)
Definition updatePrice (today nameField : string) (price : parsed Q)
    (date : string) (st : State) : outcome :=
  let name := trim nameField in
  match price with
  | Num price =>
      if is_empty name then Alerted "Please select item and enter a valid price."
      else
        let key := normalizeName name in
        match getItem key (items st) with
        | None => Alerted "Item not found."
        | Some item =>
            Saved (withItems st (setItem key
              (pushPrice item (mkPriceEntry price (ymd today date))) (items st)))
        end
  | NaN => Alerted "Please select item and enter a valid price."
  end.

(** *** Delete selected items: the click handler of [delete-selected].
    [checked] are the [data-key]s of the ticked rows, [confirmed] the answer
    to the confirmation dialog. *)
Definition deleteItems (checked : list string) (confirmed : bool) (st : State)
  : outcome :=
  if decide (length checked = 0%nat) then Alerted "Select items to delete."
  else if negb confirmed then Returned
  else Saved (withItems st
         (fold_left (fun its key => deleteItem key its) checked (items st))).

(** *** Inline quantity edit ([setQuantity]): the input handler of the
    [inline-qty] fields *)
Definition setQuantity (today reportMonth key : string) (value : parsed Z)
    (st : State) : outcome :=
  let qty := match value with
             | NaN => 0
             | Num q => if q <? 0 then 0 else q
             end in
  let month := viewMonth today reportMonth in
  match getItem key (items st) with
  | None => Returned
  | Some item =>
      let current := stock item month in
      let delta := qty - current in
      let item1 := setStock item month qty in
      let item2 := logQuantityChange item1 month today delta "inlineEdit" in
      Saved (withItems st (setItem key item2 (items st)))
  end.

(** *** Inline price change: the change handler of the [inline-price]
    fields *)
Definition inlinePrice (today key : string) (value : parsed Q) (st : State)
  : outcome :=
  match value with
  | NaN => Returned
  | Num price =>
      if Qlt_le_dec price 0 then Returned
      else match getItem key (items st) with
           | None => Returned
           | Some item =>
               if negb (Qeq_bool (getLatestPrice item) price) then
                 Saved (withItems st (setItem key
                   (pushPrice item (mkPriceEntry price today)) (items st)))
               else Returned
           end
  end.

(** *** The +/- buttons ([adjustQuantity]): the click handler of [qty-dec]
    and [qty-inc]; [dec] tells which button was hit. *)
Definition adjustQuantity (today reportMonth key : string) (dec : bool)
    (st : State) : outcome :=
  let month := viewMonth today reportMonth in
  match getItem key (items st) with
  | None => Returned
  | Some item =>
      let current := stock item month in
      let next := if dec then Z.max 0 (current - 1) else current + 1 in
      let delta := next - current in
      let item1 := setStock item month next in
      let item2 :=
        logQuantityChange item1 month today delta
          (if dec then "minus" else "plus") in
      Saved (withItems st (setItem key item2 (items st)))
  end.

(** *** Record a sale ([recordSale]): the submit handler of [sale-form].
    [manualProfit] is [None] when the profit field is left empty (the
    handler's [null]) and the parsed field otherwise. *)
Definition recordSale (today date buyerField addressField contactField
    itemField : string) (price : parsed Q) (qty : parsed Z)
    (manualProfit : option (parsed Q)) (st : State) : outcome :=
  let buyer := trim buyerField in
  let address := trim addressField in
  let contact := trim contactField in
  let itemName := trim itemField in
  match price, qty with
  | Num price, Num qty =>
      if is_empty date || is_empty buyer || is_empty address
         || is_empty contact || is_empty itemName || (qty <=? 0)
      then Alerted "Please fill all fields correctly."
      else
        let monthKey := ym today date in
        let key := normalizeName itemName in
        match getItem key (items st) with
        | None => Alerted "Item not found. Please add item first."
        | Some item =>
            let costPerUnit := getLatestPrice item in
            let total := (price * inject_Z qty)%Q in
            let autoProfit := ((price - costPerUnit) * inject_Z qty)%Q in
            let profit :=
              match manualProfit with
              | Some (Num manualProfitVal) => (manualProfitVal * inject_Z qty)%Q
              | _ => autoProfit
              end in
            let sale :=
              mkSale (ymd today date) buyer address contact (name item) price
                qty total profit
                (match manualProfit with Some _ => true | None => false end) in
            let current := stock item monthKey in
            let item1 := setStock item monthKey (Z.max 0 (current - qty)) in
            let item2 :=
              logQuantityChange item1 monthKey (ymd today date) (- qty) "sale" in
            Saved (mkState (setItem key item2 (items st)) (sales st ++ [sale])
                     (monthlySnapshots st))
        end
  | _, _ => Alerted "Please fill all fields correctly."
  end.

(** [salesForMonth]: the rows of the sales table and of the sales report. *)
Definition salesOfMonth (today month : string) (ss : list Sale) : list Sale :=
  filter (fun s => ym today (s_date s) = month) ss.

Definition salesForMonth (today month : string) (st : State) : list Sale :=
  sort (fun a b => localeCompare (s_date a) (s_date b))
    (salesOfMonth today month (sales st)).

(** ** Reports *)

Record Row := mkRow {
  r_name : string;
  r_price : Q;
  r_qty : Z;
  r_total : Q
}.

(** One turn of the [forEach] over the items in [renderMonthlyReport]: the
    rows and the grand total so far. *)
Definition valuationStep (month : string) (acc : list Row * Q) (item : Item)
  : list Row * Q :=
  let qty := stock item month in
  if qty <=? 0 then acc
  else
    let price := getLatestPrice item in
    let total := (price * inject_Z qty)%Q in
    (fst acc ++ [mkRow (name item) price qty total], (snd acc + total)%Q).

Definition valuation (month : string) (its : list Item) : list Row * Q :=
  fold_left (valuationStep month) its ([], 0%Q).

(** [rows.reduce((sum, s) => sum + s.total, 0)] *)
Definition sumTotal (ss : list Sale) : Q :=
  fold_left (fun sum s => (sum + s_total s)%Q) ss 0%Q.

(** [rows.reduce((sum, s) => sum + (s.profit || 0), 0)] *)
Definition sumProfit (ss : list Sale) : Q :=
  fold_left (fun sum s => (sum + orZero (s_profit s))%Q) ss 0%Q.

(** What [renderMonthlyReport] shows: the valuation rows sorted by name, the
    grand total, the sales of the month and their totals. *)
Record Report := mkReport {
  rep_month : string;
  rep_rows : list Row;
  rep_grand : Q;
  rep_monthSales : list Sale;
  rep_salesTotal : Q;
  rep_salesProfit : Q;
  rep_salesCount : nat
}.

(** [now] is [new Date().toISOString()], [reportMonth] the value of the
    month field.  The handler returns the report it displays and the
    document it saves, which is the loaded one with the snapshot of the month
    overwritten. *)
Definition renderMonthlyReport (now reportMonth : string) (st : State)
  : Report * State :=
  let today := slice0 10 now in
  let month := viewMonth today reportMonth in
  let v := valuation month (values (items st)) in
  let rows := sort (fun a b => localeCompare (r_name a) (r_name b)) (fst v) in
  let grand := snd v in
  let monthSales := salesOfMonth today month (sales st) in
  let salesTotal := sumTotal monthSales in
  let salesProfit := sumProfit monthSales in
  let salesCount := length monthSales in
  (mkReport month rows grand monthSales salesTotal salesProfit salesCount,
   mkState (items st) (sales st)
     (<[month := mkSnapshot now grand salesTotal salesProfit salesCount]>
        (monthlySnapshots st))).

(** The numeric totals of a report, which are also what its snapshot keeps. *)
Definition totals (r : Report) : Q * Q * Q * nat :=
  (rep_grand r, rep_salesTotal r, rep_salesProfit r, rep_salesCount r).

(** *** Yearly summary *)

Record YearRow := mkYearRow {
  y_month : string;
  y_itemsTotal : Q;
  y_salesTotal : Q;
  y_salesProfit : Q;
  y_combined : Q
}.

Record YearTotals := mkYearTotals {
  t_items : Q;
  t_sales : Q;
  t_profit : Q;
  t_combined : Q
}.

(** [String(n).padStart(2,'0')] *)
Definition padStart2 (s : string) : string :=
  if decide (String.length s < 2)%nat then String.append "0" s else s.

(** The twelve month keys of [year]. *)
Definition monthsOf (year : Z) : list string :=
  map (fun i : nat =>
         String.append (pretty year)
           (String.append "-" (padStart2 (pretty (i + 1)%nat))))
    (seq 0 12).

(** The fallback valuation of [renderYearly] for a month without snapshot. *)
Definition fallbackItemsTotal (m : string) (its : list Item) : Q :=
  fold_left (fun itemsTotal item =>
               let qty := stock item m in
               if 0 <? qty then (itemsTotal + inject_Z qty * getLatestPrice item)%Q
               else itemsTotal)
    its 0%Q.

Definition yearRow (today : string) (st : State) (m : string) : YearRow :=
  match monthlySnapshots st !! m with
  | Some snap =>
      mkYearRow m (orZero (itemsTotal snap)) (orZero (salesTotal snap))
        (orZero (salesProfit snap))
        (orZero (itemsTotal snap) + orZero (salesTotal snap))%Q
  | None =>
      let itemsTotal := fallbackItemsTotal m (values (items st)) in
      let salesRows := salesOfMonth today m (sales st) in
      let salesTotal := sumTotal salesRows in
      let salesProfit := sumProfit salesRows in
      mkYearRow m itemsTotal salesTotal salesProfit (itemsTotal + salesTotal)%Q
  end.

Definition yearTotals (rows : list YearRow) : YearTotals :=
  fold_left (fun acc r =>
               mkYearTotals (t_items acc + y_itemsTotal r)%Q
                 (t_sales acc + y_salesTotal r)%Q
                 (t_profit acc + orZero (y_salesProfit r))%Q
                 (t_combined acc + y_combined r)%Q)
    rows (mkYearTotals 0 0 0 0).

(** [parseInt(yearInput.value, 10) || new Date().getFullYear()] *)
Definition resolveYear (yearField : parsed Z) (currentYear : Z) : Z :=
  match yearField with
  | Num y => if decide (y = 0) then currentYear else y
  | NaN => currentYear
  end.

(** [yearField] is the parsed year field, [currentYear] is
    [new Date().getFullYear()].  The handler only displays: it saves
    nothing. *)
Definition renderYearly (today : string) (yearField : parsed Z)
    (currentYear : Z) (st : State) : list YearRow * YearTotals :=
  let year := resolveYear yearField currentYear in
  let rows := map (yearRow today st) (monthsOf year) in
  (rows, yearTotals rows).

(** ** Sequences of user actions *)

Inductive Action : Type :=
  | AddItem (today nameField : string) (price : parsed Q) (qty : parsed Z)
      (date : string)
  | UpdatePrice (today nameField : string) (price : parsed Q) (date : string)
  | DeleteItems (checked : list string) (confirmed : bool)
  | SetQuantity (today reportMonth key : string) (value : parsed Z)
  | InlinePrice (today key : string) (value : parsed Q)
  | AdjustQuantity (today reportMonth key : string) (dec : bool)
  | RecordSale (today date buyer address contact itemName : string)
      (price : parsed Q) (qty : parsed Z) (manualProfit : option (parsed Q))
  | MonthlyReport (now reportMonth : string).

Definition step (st : State) (a : Action) : State :=
  match a with
  | AddItem today n p q d => persisted st (upsertItem today n p q d st)
  | UpdatePrice today n p d => persisted st (updatePrice today n p d st)
  | DeleteItems ks c => persisted st (deleteItems ks c st)
  | SetQuantity today rm k v => persisted st (setQuantity today rm k v st)
  | InlinePrice today k v => persisted st (inlinePrice today k v st)
  | AdjustQuantity today rm k d => persisted st (adjustQuantity today rm k d st)
  | RecordSale today d b a c i p q mp =>
      persisted st (recordSale today d b a c i p q mp st)
  | MonthlyReport now rm => snd (renderMonthlyReport now rm st)
  end.

Definition run (st : State) (acts : list Action) : State :=
  fold_left step acts st.

(** The actions of the quantity controls. *)
Definition isQuantityAction (a : Action) : Prop :=
  match a with
  | SetQuantity _ _ _ _ | AdjustQuantity _ _ _ _ => True
  | _ => False
  end.

(** Every stored stock level of every item is at least 0. *)
Definition stockNonNegative (st : State) : Prop :=
  forall key item month q,
    getItem key (items st) = Some item ->
    quantities item !! month = Some q -> 0 <= q.

(** The date order of [localeCompare]. *)
Definition dateLe (a b : string) : Prop := localeCompare a b <> Gt.
Definition dateLt (a b : string) : Prop := localeCompare a b = Lt.

(** The entry a scan of the history keeps: the first entry, replaced by each
    later one whose date is not smaller. *)
Fixpoint latest {A} (cmp : A -> A -> comparison) (l : list A) : option A :=
  match l with
  | [] => None
  | x :: l' =>
      match latest cmp l' with
      | None => Some x
      | Some m => match cmp x m with Gt => Some x | _ => Some m end
      end
  end.

(** ** Vocabulary of the properties *)

(** [cmp] does not put [a] after [b]. *)
Definition leBy {A} (cmp : A -> A -> comparison) (a b : A) : Prop :=
  cmp a b <> Gt.

(** Every stored stock level of the item is at least 0. *)
Definition itemNonNegative (item : Item) : Prop :=
  forall month q, quantities item !! month = Some q -> 0 <= q.

(** The item an accepted [upsertItem] stores under an existing key. *)
Definition upsertExisting (today : string) (p : Q) (q : Z) (date : string)
    (item : Item) : Item :=
  let item1 :=
    if negb (Qeq_bool (getLatestPrice item) p)
    then pushPrice item (mkPriceEntry p (ymd today date))
    else item in
  logQuantityChange
    (setStock item1 (ym today date) (stock item1 (ym today date) + q))
    (ym today date) (ymd today date) q "addForm".

(** The valuation row of an item. *)
Definition rowOf (month : string) (item : Item) : Row :=
  mkRow (name item) (getLatestPrice item) (stock item month)
    (getLatestPrice item * inject_Z (stock item month))%Q.

(** Every recorded sale carries a date. *)
Definition salesDated (st : State) : Prop :=
  Forall (fun s => is_empty (s_date s) = false) (sales st).

(** The sum of a list of amounts. *)
Definition sumQ (l : list Q) : Q := fold_left Qplus l 0%Q.

(** A month's snapshot, when there is one, holds the totals the monthly
    report computes from the document as it is now. *)
Definition snapshotFresh (now : string) (st : State) (m : string) : Prop :=
  match monthlySnapshots st !! m with
  | None => True
  | Some snap =>
      itemsTotal snap == rep_grand (fst (renderMonthlyReport now m st))
      /\ salesTotal snap == rep_salesTotal (fst (renderMonthlyReport now m st))
      /\ salesProfit snap == rep_salesProfit (fst (renderMonthlyReport now m st))
  end.

(** ** Example documents *)

(** The shop of the running example: Rice at 10.00, 50 in stock for January
    2024. *)
Definition riceState : State :=
  persisted emptyState
    (upsertItem "2024-01-05" "Rice" (Num 10%Q) (Num 50) "2024-01-05" emptyState).

(** Ann buys 5 Rice at 12.00 on 10 January 2024. *)
Definition riceSale (st : State) : outcome :=
  recordSale "2024-01-10" "2024-01-10" "Ann" "1 Main St" "555" "Rice"
    (Num 12%Q) (Num 5) None st.

(** Rice with 3 in stock for January 2024. *)
Definition lowStockState : State :=
  persisted emptyState
    (upsertItem "2024-01-05" "Rice" (Num 10%Q) (Num 3) "2024-01-05" emptyState).

(** Rice priced 10.00 on 1 March 2024. *)
Definition marchRiceState : State :=
  persisted emptyState
    (upsertItem "2024-03-01" "Rice" (Num 10%Q) (Num 50) "2024-03-01" emptyState).

(** A delivery at 12.00 entered with the date 5 January 2024. *)
Definition backdatedUpsert (st : State) : State :=
  persisted st
    (upsertItem "2024-03-02" "Rice" (Num 12%Q) (Num 1) "2024-01-05" st).

(** A sale of 1 Rice entered with the price -5. *)
Definition negativePriceSale (st : State) : outcome :=
  recordSale "2024-01-10" "2024-01-10" "Ann" "1 Main St" "555" "Rice"
    (Num (-5)%Q) (Num 1) None st.

(** The running example after the sale of 5 Rice at 12.00. *)
Definition soldState : State := persisted riceState (riceSale riceState).

(** The page is opened on an empty store on 1 January 2024, which renders
    the monthly report and so stores a snapshot of January with an items
    total of 0; then 50 Rice at 10.00 are added. *)
Definition staleState : State :=
  run emptyState
    [MonthlyReport "2024-01-01T08:00:00.000Z" "";
     AddItem "2024-01-05" "Rice" (Num 10%Q) (Num 50) "2024-01-05"].

(** The running example after the sale, with the monthly report of January
    rendered. *)
Definition snapshotState : State :=
  snd (renderMonthlyReport "2024-01-31T10:00:00.000Z" "2024-01" soldState).

(** ** Further views

    The other render functions compute the data below and print it; the
    markup and the two-decimal formatting of amounts are left out. *)

(** [s.includes(sub)] *)
Fixpoint includes (sub s : string) : bool :=
  String.prefix sub s
  || match s with
     | EmptyString => false
     | String _ s' => includes sub s'
     end.

Record TableRow := mkTableRow {
  tr_key : string;
  tr_name : string;
  tr_price : Q;
  tr_qty : Z;
  tr_total : Q
}.

(** The entries [renderItemsTable] shows: those whose name contains the
    search text, sorted by name. *)
Definition shownItems (searchField : string) (its : list (string * Item))
  : list (string * Item) :=
  sort (fun a b => localeCompare (name (snd a)) (name (snd b)))
    (filter (fun e => includes (toLowerCase (trim searchField))
                        (toLowerCase (name (snd e))) = true) its).

(** One turn of the [forEach] of [renderItemsTable]. *)
Definition tableStep (month : string) (acc : list TableRow * Q)
    (e : string * Item) : list TableRow * Q :=
  let price := getLatestPrice (snd e) in
  let qty := stock (snd e) month in
  let total := (price * inject_Z qty)%Q in
  (fst acc ++ [mkTableRow (fst e) (name (snd e)) price qty total],
   (snd acc + total)%Q).

(** [renderItemsTable]: the rows of the items table and its grand total. *)
Definition renderItemsTable (today reportMonth searchField : string)
    (st : State) : list TableRow * Q :=
  fold_left (tableStep (viewMonth today reportMonth))
    (shownItems searchField (items st)) ([], 0%Q).



Record HistoryRow := mkHistoryRow {
  h_name : string;
  h_price : Q;
  h_date : string
}.

(** [a.name.localeCompare(b.name) || a.date.localeCompare(b.date)] *)
Definition byNameThenDate (a b : HistoryRow) : comparison :=
  match localeCompare (h_name a) (h_name b) with
  | Eq => localeCompare (h_date a) (h_date b)
  | c => c
  end.

(** The rows [renderPriceHistory] collects, before sorting. *)
Definition historyRowsOf (its : list Item) : list HistoryRow :=
  flat_map (fun item =>
              map (fun ph => mkHistoryRow (name item) (pe_price ph) (pe_date ph))
                (priceHistory item))
    its.

(** [renderPriceHistory]: the rows of the price-history table. *)
Definition renderPriceHistory (st : State) : list HistoryRow :=
  sort byNameThenDate (historyRowsOf (values (items st))).

(** ** Further vocabulary *)




(** Items are stored under the normalized form of their display name, which
    is trimmed and not empty. *)
Definition itemKeyed (key : string) (item : Item) : Prop :=
  is_empty (name item) = false
  /\ trim (name item) = name item
  /\ normalizeName (name item) = key.

Definition keysNormalized (st : State) : Prop :=
  forall key item, getItem key (items st) = Some item -> itemKeyed key item.

Definition isSale (a : Action) : Prop :=
  match a with
  | RecordSale _ _ _ _ _ _ _ _ _ => True
  | _ => False
  end.

Definition isAddItem (a : Action) : Prop :=
  match a with
  | AddItem _ _ _ _ _ => True
  | _ => False
  end.

Definition isMonthlyReport (a : Action) : Prop :=
  match a with
  | MonthlyReport _ _ => True
  | _ => False
  end.

(** A string that is empty or starts with something else than a space. *)
Definition startsClean (s : string) : Prop :=
  match s with
  | EmptyString => True
  | String c _ => is_space c = false
  end.

(** The item the add form creates under a new key. *)
Definition newItem (today nameField : string) (p : Q) (q : Z) (date : string)
  : Item :=
  mkItem (trim (trim nameField)) [mkPriceEntry p (ymd today date)]
    {[ ym today date := q ]}
    [mkQtyEntry (ym today date) (ymd today date) q "addForm"].

(** The item a sale of [q] leaves. *)
Definition soldItem (month dateStr : string) (q : Z) (item : Item) : Item :=
  logQuantityChange
    (setStock item month (Z.max 0 (stock item month - q)))
    month dateStr (- q) "sale".

(** How the handlers other than the sale form change a stored item: the add
    form on an existing key, a pushed price, a stock level written together
    with its audit entry. *)
Inductive plainChange : Item -> Item -> Prop :=
  | change_upsert today p q date item :
      0 < q -> plainChange item (upsertExisting today p q date item)
  | change_price item e : plainChange item (pushPrice item e)
  | change_quantity item month dateStr next source :
      plainChange item
        (logQuantityChange (setStock item month next) month dateStr
           (next - stock item month) source).

(** What one action can do to [items]: nothing, delete keys, create an item
    under a key that is free, or replace the item of an existing key. *)
Inductive stepItems (st : State) (a : Action) : list (string * Item) -> Prop :=
  | si_same : stepItems st a (items st)
  | si_delete keys :
      stepItems st a (fold_left (fun its k => deleteItem k its) keys (items st))
  | si_new today nameField p q date :
      a = AddItem today nameField (Num p) (Num q) date ->
      is_empty (trim nameField) = false -> 0 < q ->
      getItem (normalizeName (trim nameField)) (items st) = None ->
      stepItems st a
        (setItem (normalizeName (trim nameField))
           (newItem today nameField p q date) (items st))
  | si_change key item item' :
      ~ isSale a ->
      getItem key (items st) = Some item ->
      plainChange item item' ->
      stepItems st a (setItem key item' (items st))
  | si_sale key item month dateStr q :
      isSale a ->
      getItem key (items st) = Some item ->
      0 < q ->
      stepItems st a (setItem key (soldItem month dateStr q item) (items st)).

(** The second item continues the first: same name, histories extended. *)
Definition itemExtends (item item' : Item) : Prop :=
  name item' = name item
  /\ (exists more, priceHistory item' = priceHistory item ++ more)
  /\ (exists more, qtyHistory item' = qtyHistory item ++ more).

(** The item stored under [key], for the examples. *)
Definition itemAt (key : string) (st : State) : Item :=
  default (mkItem "" [] ∅ []) (getItem key (items st)).

(** The sale of the running example as an action. *)
Definition riceSaleAction : Action :=
  RecordSale "2024-01-10" "2024-01-10" "Ann" "1 Main St" "555" "Rice"
    (Num 12%Q) (Num 5) None.

(** No key occurs twice in [items]. *)
Definition keysUnique (st : State) : Prop := NoDup (map fst (items st)).

(** The row of the items table for an entry of [items]. *)
Definition tableRowOf (month : string) (e : string * Item) : TableRow :=
  mkTableRow (fst e) (name (snd e)) (getLatestPrice (snd e))
    (stock (snd e) month)
    (getLatestPrice (snd e) * inject_Z (stock (snd e) month))%Q.

(** The value of the stock an item has for a month. *)
Definition stockValue (month : string) (item : Item) : Q :=
  (getLatestPrice item * inject_Z (stock item month))%Q.

(** * Properties *)

(** ** The order on dates *)

Lemma ascii_compare_refl (a : ascii) : Ascii.compare a a = Eq.
Proof. unfold Ascii.compare. apply N.compare_refl. Qed.

Lemma ascii_compare_lt_trans (a b c : ascii) :
  Ascii.compare a b = Lt -> Ascii.compare b c = Lt -> Ascii.compare a c = Lt.
Proof.
  unfold Ascii.compare. rewrite !N.compare_lt_iff. lia.
Qed.

Lemma string_compare_lt_trans (a b c : string) :
  String.compare a b = Lt -> String.compare b c = Lt -> String.compare a c = Lt.
Proof.
  revert b c. induction a as [|x a IH]; intros [|y b] [|z c]; simpl;
    try congruence.
  destruct (Ascii.compare x y) eqn:Hxy; try discriminate.
  - apply Ascii.compare_eq_iff in Hxy. subst y.
    destruct (Ascii.compare x z) eqn:Hxz; try congruence.
    intros. eapply IH; eassumption.
  - destruct (Ascii.compare y z) eqn:Hyz; try discriminate.
    + apply Ascii.compare_eq_iff in Hyz. subst z. rewrite Hxy. reflexivity.
    + rewrite (ascii_compare_lt_trans _ _ _ Hxy Hyz). reflexivity.
Qed.

Lemma localeCompare_antisym (a b : string) :
  localeCompare a b = CompOpp (localeCompare b a).
Proof. apply String.compare_antisym. Qed.

Lemma localeCompare_refl (a : string) : localeCompare a a = Eq.
Proof.
  unfold localeCompare. induction a as [|x a IH]; simpl.
  - reflexivity.
  - rewrite ascii_compare_refl. exact IH.
Qed.

Lemma localeCompare_le_trans (a b c : string) :
  dateLe a b -> dateLe b c -> dateLe a c.
Proof.
  unfold dateLe, localeCompare. intros Hab Hbc.
  destruct (String.compare a b) eqn:E1; try congruence.
  - apply String.compare_eq_iff in E1. subst b. exact Hbc.
  - destruct (String.compare b c) eqn:E2; try congruence.
    + apply String.compare_eq_iff in E2. subst c. rewrite E1. discriminate.
    + rewrite (string_compare_lt_trans _ _ _ E1 E2). discriminate.
Qed.

(** ** The stable sort and its last element *)

Section SortFacts.
Context {A : Type} (cmp : A -> A -> comparison).
Hypothesis cmp_antisym : forall a b, cmp a b = CompOpp (cmp b a).
Hypothesis cmp_trans :
  forall a b c, cmp a b <> Gt -> cmp b c <> Gt -> cmp a c <> Gt.

Lemma cmp_le_lt_trans a b c : cmp a b <> Gt -> cmp b c = Lt -> cmp a c = Lt.
Proof.
  intros Hab Hbc.
  assert (Hac : cmp a c <> Gt) by (apply (cmp_trans a b c); congruence).
  destruct (cmp a c) eqn:E; try congruence.
  exfalso. apply (cmp_trans c a b); try assumption.
  - rewrite cmp_antisym, E. discriminate.
  - rewrite cmp_antisym, Hbc. reflexivity.
Qed.

Lemma insert_sorted_In x y l : In y (insert_sorted cmp x l) <-> y = x \/ In y l.
Proof.
  induction l as [|z l IH]; simpl.
  - intuition.
  - destruct (cmp x z); simpl; try rewrite IH; intuition.
Qed.

Lemma sort_In y l : In y (sort cmp l) <-> In y l.
Proof.
  induction l as [|x l IH]; simpl.
  - reflexivity.
  - rewrite insert_sorted_In, IH. intuition.
Qed.

Lemma insert_sorted_sorted x l :
  StronglySorted (leBy cmp) l -> StronglySorted (leBy cmp) (insert_sorted cmp x l).
Proof.
  induction 1 as [|y l Hl IH Hy]; simpl.
  - repeat constructor.
  - destruct (cmp x y) eqn:E.
    + constructor; [constructor; assumption|].
      constructor; [unfold leBy; congruence|].
      eapply List.Forall_impl; [|exact Hy]. intros z Hz.
      apply (cmp_trans x y z); [congruence | exact Hz].
    + constructor; [constructor; assumption|].
      constructor; [unfold leBy; congruence|].
      eapply List.Forall_impl; [|exact Hy]. intros z Hz.
      apply (cmp_trans x y z); [congruence | exact Hz].
    + constructor; [exact IH|].
      apply List.Forall_forall. intros z Hz.
      apply insert_sorted_In in Hz. destruct Hz as [->|Hz].
      * unfold leBy. rewrite cmp_antisym, E. discriminate.
      * rewrite List.Forall_forall in Hy. apply Hy, Hz.
Qed.

Lemma sort_sorted l : StronglySorted (leBy cmp) (sort cmp l).
Proof.
  induction l; simpl; [constructor | apply insert_sorted_sorted; assumption].
Qed.

Lemma last_In (l : list A) m : last l = Some m -> In m l.
Proof.
  intros H. apply last_Some in H. destruct H as [l' ->].
  apply in_or_app. right. left. reflexivity.
Qed.

Lemma last_insert_sorted x l m :
  StronglySorted (leBy cmp) l -> last l = Some m ->
  last (insert_sorted cmp x l)
  = Some (match cmp x m with Gt => x | _ => m end).
Proof.
  induction 1 as [|y l Hl IH Hy]; simpl; [discriminate|].
  intros Hlast.
  assert (Hym : cmp y m <> Gt).
  { destruct l as [|y' l'].
    - simpl in Hlast. injection Hlast as <-.
      intros E. pose proof (cmp_antisym y y) as Ha. rewrite E in Ha.
      discriminate.
    - rewrite List.Forall_forall in Hy. apply Hy.
      apply last_In. rewrite last_cons_cons in Hlast. exact Hlast. }
  destruct (cmp x y) eqn:E.
  - rewrite last_cons_cons, Hlast.
    assert (cmp x m <> Gt) by (apply (cmp_trans x y m); congruence).
    destruct (cmp x m); congruence.
  - rewrite last_cons_cons, Hlast.
    assert (cmp x m <> Gt) by (apply (cmp_trans x y m); congruence).
    destruct (cmp x m); congruence.
  - destruct l as [|y' l'].
    + simpl in Hlast. injection Hlast as <-. simpl. rewrite E. reflexivity.
    + rewrite last_cons_cons in Hlast. specialize (IH Hlast).
      rewrite <- IH. simpl. destruct (cmp x y'); reflexivity.
Qed.

(** The last element of the sorted list is the one the scan keeps. *)
Lemma last_sort l : last (sort cmp l) = latest cmp l.
Proof.
  induction l as [|x l IH]; simpl; [reflexivity|].
  destruct (latest cmp l) as [m|] eqn:E.
  - rewrite (last_insert_sorted x _ m (sort_sorted l) IH).
    destruct (cmp x m); reflexivity.
  - apply last_None in IH. rewrite IH. reflexivity.
Qed.

Lemma latest_In l m : latest cmp l = Some m -> In m l.
Proof.
  revert m. induction l as [|x l IH]; simpl; [discriminate|].
  intros m. destruct (latest cmp l) as [m'|].
  - destruct (cmp x m'); intros [= <-]; auto.
  - intros [= <-]. auto.
Qed.

(** An entry that nothing before it exceeds and that exceeds everything
    after it is the one kept. *)
Lemma latest_split l1 e l2 :
  Forall (fun x => cmp x e <> Gt) l1 ->
  Forall (fun x => cmp x e = Lt) l2 ->
  latest cmp (l1 ++ e :: l2) = Some e.
Proof.
  intros H1 H2. induction H1 as [|x l1 Hx H1 IH]; simpl.
  - destruct (latest cmp l2) as [m|] eqn:E; [|reflexivity].
    apply latest_In in E. rewrite List.Forall_forall in H2.
    rewrite cmp_antisym, (H2 m E). reflexivity.
  - rewrite IH. destruct (cmp x e); congruence.
Qed.

(** Conversely, the kept entry always splits the list that way. *)
Lemma latest_inv l e :
  latest cmp l = Some e ->
  exists l1 l2, l = l1 ++ e :: l2
    /\ Forall (fun x => cmp x e <> Gt) l1
    /\ Forall (fun x => cmp x e = Lt) l2.
Proof.
  revert e. induction l as [|x l IH]; simpl; [discriminate|].
  intros e. destruct (latest cmp l) as [m|] eqn:E.
  - destruct (IH m eq_refl) as (l1 & l2 & -> & F1 & F2).
    destruct (cmp x m) eqn:Exm; intros [= <-].
    + exists (x :: l1), l2. repeat split; auto.
      constructor; [congruence | assumption].
    + exists (x :: l1), l2. repeat split; auto.
      constructor; [congruence | assumption].
    + exists [], (l1 ++ m :: l2). repeat split; auto.
      assert (Hmx : cmp m x = Lt) by (rewrite cmp_antisym, Exm; reflexivity).
      apply Forall_app. split; [|constructor].
      * eapply List.Forall_impl; [|exact F1]. intros z Hz.
        apply (cmp_le_lt_trans z m x); assumption.
      * exact Hmx.
      * eapply List.Forall_impl; [|exact F2]. intros z Hz.
        apply (cmp_le_lt_trans z m x); [congruence | assumption].
  - intros [= <-].
    assert (l = []) as ->.
    { destruct l as [|y l']; [reflexivity|]. simpl in E.
      destruct (latest cmp l') as [m'|]; [destruct (cmp y m')|];
        discriminate. }
    exists [], []. repeat split; constructor.
Qed.
End SortFacts.

(** ** The latest price *)

Lemma byDate_antisym (a b : PriceEntry) : byDate a b = CompOpp (byDate b a).
Proof. apply localeCompare_antisym. Qed.

Lemma byDate_trans (a b c : PriceEntry) :
  byDate a b <> Gt -> byDate b c <> Gt -> byDate a c <> Gt.
Proof. apply localeCompare_le_trans. Qed.

Lemma getLatestPrice_latest (item : Item) :
  getLatestPrice item
  = match latest byDate (priceHistory item) with
    | Some e => pe_price e
    | None => 0%Q
    end.
Proof.
  unfold getLatestPrice.
  rewrite (last_sort byDate byDate_antisym byDate_trans).
  destruct (priceHistory item); reflexivity.
Qed.

(** C3. [getLatestPrice] returns 0 on an empty price history; otherwise it
    returns the price of the entry with the greatest date, and of the entry
    inserted last among those that share the greatest date: an entry [e]
    such that no entry before it has a greater date and every entry after
    it has a strictly smaller one.  Such an entry exists in every non-empty
    history. *)
Theorem getLatestPrice_max_date (item : Item) :
  (priceHistory item = [] -> getLatestPrice item = 0%Q)
  /\ (forall l1 e l2,
        priceHistory item = l1 ++ e :: l2 ->
        Forall (fun x => dateLe (pe_date x) (pe_date e)) l1 ->
        Forall (fun x => dateLt (pe_date x) (pe_date e)) l2 ->
        getLatestPrice item = pe_price e)
  /\ (priceHistory item <> [] ->
      exists l1 e l2,
        priceHistory item = l1 ++ e :: l2
        /\ Forall (fun x => dateLe (pe_date x) (pe_date e)) l1
        /\ Forall (fun x => dateLt (pe_date x) (pe_date e)) l2
        /\ getLatestPrice item = pe_price e).
Proof.
  rewrite getLatestPrice_latest. split; [|split].
  - intros ->. reflexivity.
  - intros l1 e l2 -> H1 H2.
    rewrite (latest_split byDate byDate_antisym l1 e l2 H1 H2). reflexivity.
  - intros Hne.
    destruct (latest byDate (priceHistory item)) as [e|] eqn:E.
    + destruct (latest_inv byDate byDate_antisym byDate_trans _ _ E)
        as (l1 & l2 & Heq & F1 & F2).
      exists l1, e, l2. auto.
    + exfalso. apply Hne. destruct (priceHistory item) as [|x l]; [reflexivity|].
      simpl in E. destruct (latest byDate l) as [m|]; [destruct (byDate x m)|];
        discriminate.
Qed.

(** Rice was priced 10 in January, then 12 and 11 on the same February day,
    and a back-dated 9 was entered last: the price is 11. *)
Lemma getLatestPrice_max_date_witness :
  getLatestPrice
    (mkItem "Rice"
       [mkPriceEntry 10 "2024-01-05"; mkPriceEntry 12 "2024-02-01";
        mkPriceEntry 11 "2024-02-01"; mkPriceEntry 9 "2024-01-20"]
       ∅ [])
  = 11%Q.
Proof.
  apply (proj1 (proj2 (getLatestPrice_max_date _))
           [mkPriceEntry 10 "2024-01-05"; mkPriceEntry 12 "2024-02-01"]
           (mkPriceEntry 11 "2024-02-01")
           [mkPriceEntry 9 "2024-01-20"]).
  - reflexivity.
  - repeat constructor; discriminate.
  - repeat constructor.
Defined.

(** ** The [items] object *)

Lemma getItem_setItem_eq key it its : getItem key (setItem key it its) = Some it.
Proof.
  induction its as [|[k it'] its IH]; simpl.
  - rewrite decide_True by reflexivity. reflexivity.
  - destruct (decide (k = key)) as [->|Hne]; simpl.
    + rewrite decide_True by reflexivity. reflexivity.
    + rewrite decide_False by assumption. exact IH.
Qed.

Lemma getItem_setItem_ne key key' it its :
  key <> key' -> getItem key' (setItem key it its) = getItem key' its.
Proof.
  intros Hne. induction its as [|[k it'] its IH]; simpl.
  - rewrite decide_False by assumption. reflexivity.
  - destruct (decide (k = key)) as [->|Hk]; simpl.
    + rewrite !decide_False by assumption. reflexivity.
    + rewrite IH. reflexivity.
Qed.

Lemma getItem_deleteItem_eq key its : getItem key (deleteItem key its) = None.
Proof.
  induction its as [|[k it'] its IH]; simpl; [reflexivity|].
  destruct (decide (k = key)) as [->|Hk]; simpl; [exact IH|].
  rewrite decide_False by assumption. exact IH.
Qed.

Lemma getItem_deleteItem_ne key key' its :
  key <> key' -> getItem key' (deleteItem key its) = getItem key' its.
Proof.
  intros Hne. induction its as [|[k it'] its IH]; simpl; [reflexivity|].
  destruct (decide (k = key)) as [->|Hk]; simpl.
  - rewrite decide_False by assumption. exact IH.
  - rewrite IH. reflexivity.
Qed.

Lemma getItem_deleteItems key (keys : list string) its :
  getItem key (fold_left (fun its k => deleteItem k its) keys its)
  = if decide (key ∈ keys) then None else getItem key its.
Proof.
  revert its. induction keys as [|k keys IH]; intros its; cbn [fold_left].
  - rewrite decide_False by apply not_elem_of_nil. reflexivity.
  - rewrite IH. destruct (decide (key ∈ keys)) as [Hin|Hin].
    + rewrite decide_True by (apply elem_of_cons; auto). reflexivity.
    + destruct (decide (k = key)) as [->|Hk].
      * rewrite getItem_deleteItem_eq.
        rewrite decide_True by (apply elem_of_cons; auto). reflexivity.
      * rewrite getItem_deleteItem_ne by assumption.
        rewrite decide_False; [reflexivity|].
        intros [->|H]%elem_of_cons; auto.
Qed.

Lemma getItem_In key it its : getItem key its = Some it -> In (key, it) its.
Proof.
  induction its as [|[k it'] its IH]; simpl; [discriminate|].
  destruct (decide (k = key)) as [->|Hk].
  - intros [= ->]. auto.
  - auto.
Qed.

(** ** The sales ledger is append-only *)

Ltac handler_cases :=
  repeat match goal with
         | |- context [match ?x with _ => _ end] => destruct x eqn:?; simpl
         end.

Lemma step_sales (st : State) (a : Action) :
  exists extra, sales (step st a) = sales st ++ extra.
Proof.
  destruct a; simpl;
    unfold upsertItem, updatePrice, deleteItems, setQuantity, inlinePrice,
      adjustQuantity, recordSale;
    handler_cases;
    solve [ exists []; rewrite app_nil_r; reflexivity
          | eexists; reflexivity ].
Qed.

Lemma run_sales (acts : list Action) (st : State) :
  exists extra, sales (run st acts) = sales st ++ extra.
Proof.
  revert st. induction acts as [|a acts IH]; intros st; simpl.
  - exists []. rewrite app_nil_r. reflexivity.
  - destruct (IH (step st a)) as [e2 ->].
    destruct (step_sales st a) as [e1 ->].
    exists (e1 ++ e2). rewrite app_assoc. reflexivity.
Qed.

(** C1. When [recordSale] succeeds it appends one sale whose profit is
    [(price - costPerUnit) * qty] if the profit field was left empty and
    [manualProfitPerUnit * qty] if it holds a number, where [costPerUnit] is
    [getLatestPrice] of the item in the document the sale was recorded on;
    whatever actions follow (price updates and item additions among them),
    that sale record stays in its place in [sales], unchanged. *)
Theorem recordSale_profit_snapshot
    (today date buyer address contact itemName : string)
    (price : parsed Q) (qty : parsed Z) (manual : option (parsed Q))
    (st st' : State) :
  recordSale today date buyer address contact itemName price qty manual st
    = Saved st' ->
  exists item p q sale,
    price = Num p /\ qty = Num q
    /\ getItem (normalizeName (trim itemName)) (items st) = Some item
    /\ sales st' = sales st ++ [sale]
    /\ (manual = None ->
        s_profit sale = ((p - getLatestPrice item) * inject_Z q)%Q)
    /\ (forall m, manual = Some (Num m) -> s_profit sale = (m * inject_Z q)%Q)
    /\ (forall later : list Action,
          sales (run st' later) !! length (sales st) = Some sale).
Proof.
  unfold recordSale. intros H.
  destruct price as [|p]; [discriminate|].
  destruct qty as [|q]; [discriminate|].
  destruct (_ || _) eqn:Hv in H; [discriminate|].
  destruct (getItem _ (items st)) as [item|] eqn:Hitem; [|discriminate].
  injection H as <-. simpl.
  eexists item, p, q, _.
  split; [reflexivity|]. split; [reflexivity|]. split; [reflexivity|].
  split; [reflexivity|]. split; [|split].
  - intros ->. reflexivity.
  - intros m ->. reflexivity.
  - intros later.
    match goal with
    | |- context [run ?s later] => destruct (run_sales later s) as [extra ->]
    end.
    simpl. rewrite <- app_assoc. rewrite lookup_app_r by reflexivity.
    rewrite Nat.sub_diag. reflexivity.
Qed.

Lemma recordSale_profit_snapshot_witness :
  exists item p q sale,
    Num 12%Q = Num p /\ Num 5 = Num q
    /\ getItem (normalizeName (trim "Rice")) (items riceState) = Some item
    /\ sales (persisted riceState (riceSale riceState))
       = sales riceState ++ [sale]
    /\ (@None (parsed Q) = None ->
        s_profit sale = ((p - getLatestPrice item) * inject_Z q)%Q)
    /\ (forall m, None = Some (Num m) -> s_profit sale = (m * inject_Z q)%Q)
    /\ (forall later : list Action,
          sales (run (persisted riceState (riceSale riceState)) later)
            !! length (sales riceState) = Some sale).
Proof.
  apply (recordSale_profit_snapshot "2024-01-10" "2024-01-10" "Ann" "1 Main St"
           "555" "Rice" (Num 12%Q) (Num 5) None riceState).
  vm_compute. reflexivity.
Defined.

(** ** Stock levels never go below zero *)

Lemma stock_nonneg item month : itemNonNegative item -> 0 <= stock item month.
Proof.
  intros H. unfold stock.
  destruct (quantities item !! month) as [q|] eqn:E; simpl; [eauto | lia].
Qed.

Lemma setStock_nonneg item month q :
  itemNonNegative item -> 0 <= q -> itemNonNegative (setStock item month q).
Proof.
  intros H Hq m q'. simpl. rewrite lookup_insert.
  destruct (decide (month = m)); [intros [= <-]; exact Hq | apply H].
Qed.

Lemma pushPrice_nonneg item e :
  itemNonNegative item -> itemNonNegative (pushPrice item e).
Proof. intros H. exact H. Qed.

Lemma logQuantityChange_nonneg item month d delta source :
  itemNonNegative item ->
  itemNonNegative (logQuantityChange item month d delta source).
Proof.
  intros H. unfold logQuantityChange. destruct (decide (delta = 0)); exact H.
Qed.

Lemma stockNonNegative_item st key item :
  stockNonNegative st -> getItem key (items st) = Some item ->
  itemNonNegative item.
Proof. intros H Hk m q. apply (H key item m q Hk). Qed.

Lemma stockNonNegative_setItem st key item s sn :
  stockNonNegative st -> itemNonNegative item ->
  stockNonNegative (mkState (setItem key item (items st)) s sn).
Proof.
  intros H Hi k it m q. simpl.
  destruct (decide (key = k)) as [->|Hne].
  - rewrite getItem_setItem_eq. intros [= <-]. apply Hi.
  - rewrite getItem_setItem_ne by assumption. apply H.
Qed.

Lemma stockNonNegative_deleteItems st keys s sn :
  stockNonNegative st ->
  stockNonNegative
    (mkState (fold_left (fun its k => deleteItem k its) keys (items st)) s sn).
Proof.
  intros H k it m q. simpl. rewrite getItem_deleteItems.
  destruct (decide (k ∈ keys)); [discriminate | apply H].
Qed.

Create HintDb stockdb.
Local Hint Resolve stock_nonneg setStock_nonneg pushPrice_nonneg
  logQuantityChange_nonneg stockNonNegative_setItem
  stockNonNegative_deleteItems : stockdb.

Lemma upsertItem_nonneg today n p q d st :
  stockNonNegative st -> stockNonNegative (persisted st (upsertItem today n p q d st)).
Proof.
  intros H. unfold upsertItem.
  destruct p as [|p]; [exact H|]. destruct q as [|q]; [exact H|].
  destruct (_ || _) eqn:Hv; [exact H|].
  apply orb_false_iff in Hv. destruct Hv as [_ Hq]. apply Z.leb_gt in Hq.
  destruct (getItem _ (items st)) as [item|] eqn:Hitem; simpl.
  - pose proof (stockNonNegative_item _ _ _ H Hitem) as Hi.
    apply stockNonNegative_setItem; [exact H|].
    apply logQuantityChange_nonneg, setStock_nonneg.
    + destruct (negb _); auto with stockdb.
    + assert (0 <= stock (if negb (Qeq_bool (getLatestPrice item) p)
                         then pushPrice item (mkPriceEntry p (ymd today d))
                         else item) (ym today d)).
      { apply stock_nonneg. destruct (negb _); auto with stockdb. }
      lia.
  - apply stockNonNegative_setItem; [exact H|].
    intros m q'. simpl. rewrite lookup_singleton.
    destruct (decide (ym today d = m)); [intros [= <-]; lia | discriminate].
Qed.

Lemma updatePrice_nonneg today n p d st :
  stockNonNegative st -> stockNonNegative (persisted st (updatePrice today n p d st)).
Proof.
  intros H. unfold updatePrice.
  destruct p as [|p]; [exact H|]. destruct (is_empty _); [exact H|].
  destruct (getItem _ (items st)) as [item|] eqn:Hitem; simpl; [|exact H].
  apply stockNonNegative_setItem; [exact H|].
  apply pushPrice_nonneg. eapply stockNonNegative_item; eassumption.
Qed.

Lemma deleteItems_nonneg ks c st :
  stockNonNegative st -> stockNonNegative (persisted st (deleteItems ks c st)).
Proof.
  intros H. unfold deleteItems.
  destruct (decide _); [exact H|]. destruct c; simpl; [|exact H].
  apply stockNonNegative_deleteItems, H.
Qed.

Lemma setQuantity_nonneg today rm key v st :
  stockNonNegative st -> stockNonNegative (persisted st (setQuantity today rm key v st)).
Proof.
  intros H. unfold setQuantity.
  destruct (getItem _ (items st)) as [item|] eqn:Hitem; simpl; [|exact H].
  apply stockNonNegative_setItem; [exact H|].
  apply logQuantityChange_nonneg, setStock_nonneg.
  - eapply stockNonNegative_item; eassumption.
  - destruct v as [|q]; [lia|]. destruct (q <? 0) eqn:E; [lia|].
    apply Z.ltb_ge in E. exact E.
Qed.

Lemma inlinePrice_nonneg today key v st :
  stockNonNegative st -> stockNonNegative (persisted st (inlinePrice today key v st)).
Proof.
  intros H. unfold inlinePrice.
  destruct v as [|p]; [exact H|]. destruct (Qlt_le_dec p 0); [exact H|].
  destruct (getItem _ (items st)) as [item|] eqn:Hitem; simpl; [|exact H].
  destruct (negb _); simpl; [|exact H].
  apply stockNonNegative_setItem; [exact H|].
  apply pushPrice_nonneg. eapply stockNonNegative_item; eassumption.
Qed.

Lemma adjustQuantity_nonneg today rm key dec st :
  stockNonNegative st ->
  stockNonNegative (persisted st (adjustQuantity today rm key dec st)).
Proof.
  intros H. unfold adjustQuantity.
  destruct (getItem _ (items st)) as [item|] eqn:Hitem; simpl; [|exact H].
  pose proof (stockNonNegative_item _ _ _ H Hitem) as Hi.
  apply stockNonNegative_setItem; [exact H|].
  apply logQuantityChange_nonneg, setStock_nonneg; [exact Hi|].
  pose proof (stock_nonneg item (viewMonth today rm) Hi).
  destruct dec; lia.
Qed.

Lemma recordSale_nonneg today d b a c i p q mp st :
  stockNonNegative st ->
  stockNonNegative (persisted st (recordSale today d b a c i p q mp st)).
Proof.
  intros H. unfold recordSale.
  destruct p as [|p]; [exact H|]. destruct q as [|q]; [exact H|].
  destruct (_ || _); [exact H|].
  destruct (getItem _ (items st)) as [item|] eqn:Hitem; simpl; [|exact H].
  apply stockNonNegative_setItem; [exact H|].
  apply logQuantityChange_nonneg, setStock_nonneg; [|lia].
  eapply stockNonNegative_item; eassumption.
Qed.

Lemma step_nonneg st a : stockNonNegative st -> stockNonNegative (step st a).
Proof.
  intros H. destruct a; simpl;
    auto using upsertItem_nonneg, updatePrice_nonneg, deleteItems_nonneg,
      setQuantity_nonneg, inlinePrice_nonneg, adjustQuantity_nonneg,
      recordSale_nonneg.
Qed.

Lemma run_nonneg acts st : stockNonNegative st -> stockNonNegative (run st acts).
Proof.
  revert st. induction acts as [|a acts IH]; intros st H; simpl;
    [exact H | apply IH, step_nonneg, H].
Qed.

(** Every document the page can produce from an empty store has
    non-negative stock levels. *)
Lemma reachable_nonneg acts : stockNonNegative (run emptyState acts).
Proof. apply run_nonneg. intros k it m q. simpl. discriminate. Qed.

(** The inline edit and the minus button write a value that is at least 0
    whatever the document held before. *)
Lemma clamped_writes_nonneg today rm key st item :
  getItem key (items st) = Some item ->
  (forall v item',
     getItem key (items (persisted st (setQuantity today rm key v st))) = Some item' ->
     0 <= stock item' (viewMonth today rm))
  /\ (forall item',
        getItem key (items (persisted st (adjustQuantity today rm key true st)))
          = Some item' ->
        0 <= stock item' (viewMonth today rm)).
Proof.
  intros Hitem. unfold setQuantity, adjustQuantity. rewrite Hitem. simpl.
  split.
  - intros v item'. rewrite getItem_setItem_eq. intros [= <-].
    unfold logQuantityChange, stock. destruct (decide _); simpl;
      rewrite lookup_insert_eq; simpl;
      (destruct v as [|q]; [lia|]; destruct (q <? 0) eqn:E; [lia|];
       apply Z.ltb_ge in E; exact E).
  - intros item'. rewrite getItem_setItem_eq. intros [= <-].
    unfold logQuantityChange, stock. destruct (decide _); simpl;
      rewrite lookup_insert_eq; simpl; lia.
Qed.

(** C2. From a document whose stock levels are all at least 0 (every
    document the handlers produce from an empty store is one, see
    [reachable_nonneg]), whatever sequence of inline quantity edits and
    +/- clicks is applied, every stored stock level of every item and month
    is at least 0 and so is every stock level read. *)
Theorem quantity_controls_keep_stock_nonnegative
    (st : State) (acts : list Action) :
  stockNonNegative st ->
  Forall isQuantityAction acts ->
  stockNonNegative (run st acts)
  /\ forall key item month,
       getItem key (items (run st acts)) = Some item -> 0 <= stock item month.
Proof.
  intros H _. pose proof (run_nonneg acts st H) as Hr. split; [exact Hr|].
  intros key item month Hk. apply stock_nonneg.
  eapply stockNonNegative_item; eassumption.
Qed.

Lemma quantity_controls_keep_stock_nonnegative_witness :
  let acts :=
    [SetQuantity "2024-01-06" "2024-01" "rice" (Num (-3));
     AdjustQuantity "2024-01-06" "2024-01" "rice" true;
     AdjustQuantity "2024-01-06" "2024-01" "rice" false;
     SetQuantity "2024-01-07" "" "rice" NaN;
     AdjustQuantity "2024-01-07" "2024-02" "rice" true] in
  stockNonNegative (run riceState acts)
  /\ forall key item month,
       getItem key (items (run riceState acts)) = Some item ->
       0 <= stock item month.
Proof.
  apply (quantity_controls_keep_stock_nonnegative riceState).
  - exact (reachable_nonneg
             [AddItem "2024-01-05" "Rice" (Num 10%Q) (Num 50) "2024-01-05"]).
  - repeat constructor.
Defined.

(** ** The stock decrement of a sale and its audit entry *)


(** C4. Selling 5 of an item that has 3 in stock leaves 0 in stock, a change
    of -3, and appends an audit entry with source "sale" whose delta is -5:
    the audit delta is the negated sale quantity, not the stock change. *)
Theorem recordSale_audit_delta_is_not_stock_change :
  exists item item',
    getItem "rice" (items lowStockState) = Some item
    /\ getItem "rice" (items (persisted lowStockState (riceSale lowStockState)))
       = Some item'
    /\ stock item "2024-01" = 3
    /\ stock item' "2024-01" = 0
    /\ last (qtyHistory item')
       = Some (mkQtyEntry "2024-01" "2024-01-10" (-5) "sale")
    /\ stock item' "2024-01" - stock item "2024-01" = -3.
Proof.
  eexists _, _. split; [vm_compute; reflexivity|].
  split; [vm_compute; reflexivity|].
  repeat split; vm_compute; reflexivity.
Qed.

(** ** Adding stock to an existing item *)

Lemma getLatestPrice_ext (a b : Item) :
  priceHistory a = priceHistory b -> getLatestPrice a = getLatestPrice b.
Proof. unfold getLatestPrice. intros ->. reflexivity. Qed.

(** A pushed entry becomes the latest price when no earlier entry has a
    greater date. *)
Lemma getLatestPrice_pushPrice item e :
  Forall (fun x => dateLe (pe_date x) (pe_date e)) (priceHistory item) ->
  getLatestPrice (pushPrice item e) = pe_price e.
Proof.
  intros H. rewrite getLatestPrice_latest. simpl.
  rewrite (latest_split byDate byDate_antisym (priceHistory item) e [] H);
    [reflexivity | constructor].
Qed.

Lemma upsertItem_existing today nameField p q date st item :
  is_empty (trim nameField) = false -> 0 < q ->
  getItem (normalizeName (trim nameField)) (items st) = Some item ->
  upsertItem today nameField (Num p) (Num q) date st
  = Saved (withItems st
             (setItem (normalizeName (trim nameField))
                (upsertExisting today p q date item) (items st))).
Proof.
  intros Hn Hq Hitem. unfold upsertItem. rewrite Hn, Hitem.
  replace (q <=? 0) with false by (symmetry; apply Z.leb_gt; exact Hq).
  reflexivity.
Qed.

Lemma upsertExisting_name today p q date item :
  name (upsertExisting today p q date item) = name item.
Proof.
  unfold upsertExisting, logQuantityChange.
  destruct (decide (q = 0)); destruct (negb _); reflexivity.
Qed.

Lemma upsertExisting_priceHistory today p q date item :
  priceHistory (upsertExisting today p q date item)
  = if Qeq_bool (getLatestPrice item) p then priceHistory item
    else priceHistory item ++ [mkPriceEntry p (ymd today date)].
Proof.
  unfold upsertExisting, logQuantityChange.
  destruct (decide (q = 0)); destruct (Qeq_bool _ p); reflexivity.
Qed.

(** C5 (amended). For an existing item, an accepted [upsertItem] adds no
    price-history entry when the price equals the currently-resolved latest
    price and appends exactly one entry, the price at the date of the call,
    when it differs.  If no entry of the history is dated after the call,
    the price of the call is the resolved latest price afterwards, and a
    second call with the same price then adds no entry. *)
Theorem upsertItem_price_dedup
    (today nameField : string) (p : Q) (q : Z) (date : string)
    (st : State) (item : Item) :
  is_empty (trim nameField) = false -> 0 < q ->
  getItem (normalizeName (trim nameField)) (items st) = Some item ->
  exists st1 item1,
    upsertItem today nameField (Num p) (Num q) date st = Saved st1
    /\ getItem (normalizeName (trim nameField)) (items st1) = Some item1
    /\ (getLatestPrice item == p -> priceHistory item1 = priceHistory item)
    /\ (~ getLatestPrice item == p ->
        priceHistory item1
        = priceHistory item ++ [mkPriceEntry p (ymd today date)])
    /\ (Forall (fun x => dateLe (pe_date x) (ymd today date)) (priceHistory item) ->
        getLatestPrice item1 == p
        /\ forall today2 q2 date2, 0 < q2 ->
             exists st2 item2,
               upsertItem today2 nameField (Num p) (Num q2) date2 st1 = Saved st2
               /\ getItem (normalizeName (trim nameField)) (items st2) = Some item2
               /\ priceHistory item2 = priceHistory item1).
Proof.
  intros Hn Hq Hitem.
  eexists _, (upsertExisting today p q date item).
  split; [apply (upsertItem_existing _ _ _ _ _ _ item); assumption|].
  split; [simpl; apply getItem_setItem_eq|].
  rewrite upsertExisting_priceHistory.
  split; [|split].
  - intros E. apply Qeq_bool_iff in E. rewrite E. reflexivity.
  - intros E. destruct (Qeq_bool _ p) eqn:B; [|reflexivity].
    exfalso. apply E, Qeq_bool_iff, B.
  - intros Hdates.
    assert (Hlatest : getLatestPrice (upsertExisting today p q date item) == p).
    { destruct (Qeq_bool (getLatestPrice item) p) eqn:B.
      - rewrite (getLatestPrice_ext _ item).
        + apply Qeq_bool_iff, B.
        + rewrite upsertExisting_priceHistory, B. reflexivity.
      - rewrite (getLatestPrice_ext _
                   (pushPrice item (mkPriceEntry p (ymd today date)))).
        + rewrite getLatestPrice_pushPrice by exact Hdates. reflexivity.
        + rewrite upsertExisting_priceHistory, B. reflexivity. }
    split; [exact Hlatest|].
    intros today2 q2 date2 Hq2.
    eexists _, (upsertExisting today2 p q2 date2
                  (upsertExisting today p q date item)).
    split; [apply (upsertItem_existing _ _ _ _ _ _
                     (upsertExisting today p q date item)); try assumption;
            simpl; apply getItem_setItem_eq|].
    split; [simpl; apply getItem_setItem_eq|].
    rewrite upsertExisting_priceHistory.
    apply Qeq_bool_iff in Hlatest. rewrite Hlatest.
    rewrite upsertExisting_priceHistory. reflexivity.
Qed.

(** The same back-dated delivery entered twice: the second call adds a
    second entry at 12.00, since the resolved price is still the 10.00 of
    March. *)
Lemma upsertItem_twice_backdated_adds_again :
  (priceHistory <$> getItem "rice" (items (backdatedUpsert marchRiceState)))
  = Some [mkPriceEntry 10 "2024-03-01"; mkPriceEntry 12 "2024-01-05"]
  /\ (priceHistory <$>
        getItem "rice" (items (backdatedUpsert (backdatedUpsert marchRiceState))))
     = Some [mkPriceEntry 10 "2024-03-01"; mkPriceEntry 12 "2024-01-05";
             mkPriceEntry 12 "2024-01-05"].
Proof. split; vm_compute; reflexivity. Qed.

Lemma upsertItem_price_dedup_witness :
  exists st1 item1,
    upsertItem "2024-03-02" " RICE " (Num 12%Q) (Num 1) "2024-03-02" marchRiceState
      = Saved st1
    /\ getItem (normalizeName (trim " RICE ")) (items st1) = Some item1
    /\ (getLatestPrice (mkItem "Rice" [mkPriceEntry 10 "2024-03-01"]
                          {[ "2024-03" := 50 ]}
                          [mkQtyEntry "2024-03" "2024-03-01" 50 "addForm"]) == 12 ->
        priceHistory item1 = [mkPriceEntry 10 "2024-03-01"])
    /\ (~ getLatestPrice (mkItem "Rice" [mkPriceEntry 10 "2024-03-01"]
                            {[ "2024-03" := 50 ]}
                            [mkQtyEntry "2024-03" "2024-03-01" 50 "addForm"]) == 12 ->
        priceHistory item1
        = [mkPriceEntry 10 "2024-03-01"]
          ++ [mkPriceEntry 12 (ymd "2024-03-02" "2024-03-02")])
    /\ (Forall (fun x => dateLe (pe_date x) (ymd "2024-03-02" "2024-03-02"))
          [mkPriceEntry 10 "2024-03-01"] ->
        getLatestPrice item1 == 12
        /\ forall today2 q2 date2, 0 < q2 ->
             exists st2 item2,
               upsertItem today2 " RICE " (Num 12%Q) (Num q2) date2 st1 = Saved st2
               /\ getItem (normalizeName (trim " RICE ")) (items st2) = Some item2
               /\ priceHistory item2 = priceHistory item1).
Proof.
  apply (upsertItem_price_dedup "2024-03-02" " RICE " 12 1 "2024-03-02"
           marchRiceState
           (mkItem "Rice" [mkPriceEntry 10 "2024-03-01"] {[ "2024-03" := 50 ]}
              [mkQtyEntry "2024-03" "2024-03-01" 50 "addForm"])).
  - reflexivity.
  - lia.
  - vm_compute. reflexivity.
Defined.

(** C10. An [upsertItem] call whose name normalizes to the key of an existing
    item leaves that item's display name as it was, whatever the casing or
    the surrounding white space of the name typed and whether or not the
    call is accepted. *)
Theorem upsertItem_keeps_display_name
    (today nameField : string) (price : parsed Q) (qty : parsed Z)
    (date : string) (st : State) (key : string) (item : Item) :
  getItem key (items st) = Some item ->
  normalizeName (trim nameField) = key ->
  exists item',
    getItem key (items (persisted st (upsertItem today nameField price qty date st)))
      = Some item'
    /\ name item' = name item.
Proof.
  intros Hitem <-. unfold upsertItem.
  destruct price as [|p]; [exists item; auto|].
  destruct qty as [|q]; [exists item; auto|].
  destruct (_ || _); [exists item; auto|].
  rewrite Hitem. simpl. rewrite getItem_setItem_eq. eexists. split; [reflexivity|].
  apply (upsertExisting_name today p q date item).
Qed.

Lemma upsertItem_keeps_display_name_witness :
  exists item',
    getItem "rice"
      (items (persisted riceState
                (upsertItem "2024-01-06" "  RICE " (Num 11%Q) (Num 2) "2024-01-06"
                   riceState)))
      = Some item'
    /\ name item'
       = name (mkItem "Rice" [mkPriceEntry 10 "2024-01-05"] {[ "2024-01" := 50 ]}
                 [mkQtyEntry "2024-01" "2024-01-05" 50 "addForm"]).
Proof.
  apply (upsertItem_keeps_display_name "2024-01-06" "  RICE " (Num 11%Q) (Num 2)
           "2024-01-06" riceState "rice").
  - vm_compute. reflexivity.
  - vm_compute. reflexivity.
Defined.

(** ** Validation of a sale *)

(** The guard of the sale form: an empty required field, an unparsable
    price or quantity, or a quantity that is not positive is refused and
    nothing is written. *)
Lemma recordSale_guard today date buyer address contact itemName price qty
    manual st :
  is_empty date = true \/ is_empty (trim buyer) = true
  \/ is_empty (trim address) = true \/ is_empty (trim contact) = true
  \/ is_empty (trim itemName) = true \/ price = NaN \/ qty = NaN
  \/ (exists q, qty = Num q /\ q <= 0) ->
  recordSale today date buyer address contact itemName price qty manual st
    = Alerted "Please fill all fields correctly."
  /\ persisted st
       (recordSale today date buyer address contact itemName price qty manual st)
     = st.
Proof.
  intros H.
  assert (E : recordSale today date buyer address contact itemName price qty
                manual st = Alerted "Please fill all fields correctly.").
  { unfold recordSale. destruct price as [|p]; [reflexivity|].
    destruct qty as [|q]; [reflexivity|].
    assert (Hv : is_empty date || is_empty (trim buyer) || is_empty (trim address)
                 || is_empty (trim contact) || is_empty (trim itemName)
                 || (q <=? 0) = true).
    { destruct H as [H|[H|[H|[H|[H|[H|[H|(q' & [= <-] & H)]]]]]]];
        try discriminate; try (rewrite H; rewrite ?orb_true_r; reflexivity).
      apply Z.leb_le in H. rewrite H. apply orb_true_r. }
    rewrite Hv. reflexivity. }
  rewrite E. split; reflexivity.
Qed.

(** C8. A sale of Rice at the price -5 is not refused: the handler saves a
    document with the sale appended, at price -5 and total -5, and with the
    stock reduced. *)
Theorem recordSale_accepts_negative_price :
  exists st' item',
    negativePriceSale riceState = Saved st'
    /\ (s_price <$> last (sales st')) = Some (-5)%Q
    /\ (s_total <$> last (sales st')) = Some (-5)%Q
    /\ length (sales st') = S (length (sales riceState))
    /\ getItem "rice" (items st') = Some item'
    /\ stock item' "2024-01" = 49.
Proof.
  eexists _, _. split; [vm_compute; reflexivity|].
  repeat split; vm_compute; reflexivity.
Qed.

(** ** Deleting items *)

Lemma In_deleteItem k it key its :
  In (k, it) (deleteItem key its) -> k <> key /\ In (k, it) its.
Proof.
  induction its as [|[k' it'] its IH]; simpl; [tauto|].
  destruct (decide (k' = key)) as [->|Hne]; simpl.
  - intros H. destruct (IH H). auto.
  - intros [[= -> ->]|H]; [auto|]. destruct (IH H). auto.
Qed.

Lemma In_deleteItems k it (keys : list string) its :
  In (k, it) (fold_left (fun its key => deleteItem key its) keys its) ->
  (k ∉ keys) /\ In (k, it) its.
Proof.
  revert its. induction keys as [|key keys IH]; intros its; cbn [fold_left].
  - intros H. split; [apply not_elem_of_nil | exact H].
  - intros H. destruct (IH _ H) as [Hk Hin].
    apply In_deleteItem in Hin. destruct Hin as [Hne Hin].
    split; [|exact Hin]. intros [->|Hk']%elem_of_cons; auto.
Qed.

Lemma valuation_rows_In month its acc r :
  In r (fst (fold_left (valuationStep month) its acc)) ->
  In r (fst acc)
  \/ exists item, In item its /\ 0 < stock item month /\ r = rowOf month item.
Proof.
  revert acc. induction its as [|it its IH]; intros acc; simpl; [auto|].
  intros H. destruct (IH _ H) as [Hacc|(item & Hin & Hq & ->)].
  - unfold valuationStep in Hacc. destruct (stock it month <=? 0) eqn:E; [auto|].
    simpl in Hacc. apply in_app_or in Hacc. destruct Hacc as [Hacc|[<-|[]]]; [auto|].
    right. exists it. apply Z.leb_gt in E. auto.
  - right. exists item. auto.
Qed.

(** C9. Deleting the ticked items removes exactly those keys from [items],
    so every row of a monthly report made afterwards is the row of an item
    whose key was not ticked, and it leaves [sales] as it was: every past
    sale record is unchanged, and so are the sales listed for any month. *)
Theorem deleteItems_removes_items_keeps_sales (keys : list string) (st : State) :
  (forall k, k ∈ keys ->
     getItem k (items (persisted st (deleteItems keys true st))) = None)
  /\ (forall k, k ∉ keys ->
        getItem k (items (persisted st (deleteItems keys true st)))
        = getItem k (items st))
  /\ (forall now month r,
        In r (rep_rows (fst (renderMonthlyReport now month
                               (persisted st (deleteItems keys true st))))) ->
        exists k item,
          (k ∉ keys) /\ In (k, item) (items st)
          /\ r = rowOf (viewMonth (slice0 10 now) month) item)
  /\ sales (persisted st (deleteItems keys true st)) = sales st
  /\ (forall today month,
        salesForMonth today month (persisted st (deleteItems keys true st))
        = salesForMonth today month st).
Proof.
  unfold deleteItems. destruct keys as [|key keys]; simpl.
  - split; [intros k Hk; destruct (not_elem_of_nil _ Hk)|].
    split; [reflexivity|]. split; [|split; reflexivity].
    intros now month r Hr. apply sort_In in Hr.
    apply valuation_rows_In in Hr. destruct Hr as [[]|(item & Hin & _ & ->)].
    apply in_map_iff in Hin. destruct Hin as ([k it] & <- & Hin).
    exists k, it. split; [apply not_elem_of_nil | auto].
  - split; [|split; [|split; [|split; reflexivity]]].
    + intros k Hk.
      rewrite (getItem_deleteItems k keys (deleteItem key (items st))).
      destruct (decide (k ∈ keys)) as [|Hn]; [reflexivity|].
      apply elem_of_cons in Hk. destruct Hk as [->|Hk]; [|contradiction].
      apply getItem_deleteItem_eq.
    + intros k Hk.
      rewrite (getItem_deleteItems k keys (deleteItem key (items st))).
      rewrite not_elem_of_cons in Hk. destruct Hk as [Hne Hk].
      rewrite decide_False by exact Hk.
      apply getItem_deleteItem_ne. congruence.
    + intros now month r Hr. apply sort_In in Hr.
      apply valuation_rows_In in Hr. destruct Hr as [[]|(item & Hin & _ & ->)].
      apply in_map_iff in Hin. destruct Hin as ([k it] & <- & Hin).
      apply (In_deleteItems k it (key :: keys)) in Hin.
      exists k, it. destruct Hin. auto.
Qed.

(** ** The monthly report *)

Lemma ymd_dated today date : is_empty date = false -> ymd today date = date.
Proof. unfold ymd. intros ->. reflexivity. Qed.

Lemma salesOfMonth_dated today1 today2 month ss :
  Forall (fun s => is_empty (s_date s) = false) ss ->
  salesOfMonth today1 month ss = salesOfMonth today2 month ss.
Proof.
  unfold salesOfMonth. induction 1 as [|s ss Hs _ IH]; [reflexivity|].
  rewrite (filter_cons (fun s => ym today1 (s_date s) = month)).
  rewrite (filter_cons (fun s => ym today2 (s_date s) = month)).
  assert (E : ym today1 (s_date s) = ym today2 (s_date s)).
  { unfold ym. rewrite (ymd_dated today1 _ Hs), (ymd_dated today2 _ Hs).
    reflexivity. }
  rewrite E, IH. reflexivity.
Qed.

Lemma step_salesDated st a : salesDated st -> salesDated (step st a).
Proof.
  unfold salesDated. intros H.
  destruct a; simpl;
    unfold upsertItem, updatePrice, deleteItems, setQuantity, inlinePrice,
      adjustQuantity;
    handler_cases; try exact H.
  unfold recordSale. destruct price as [|p]; [exact H|].
  destruct qty as [|q]; [exact H|].
  destruct (_ || _) eqn:Hv; [exact H|].
  destruct (getItem _ (items st)); simpl; [|exact H].
  apply Forall_app. split; [exact H|]. constructor; [|constructor]. simpl.
  repeat (apply orb_false_iff in Hv; destruct Hv as [Hv _]).
  rewrite (ymd_dated _ _ Hv). exact Hv.
Qed.

(** Every document the page can produce from an empty store has dated
    sales. *)
Lemma reachable_salesDated acts : salesDated (run emptyState acts).
Proof.
  assert (H : salesDated emptyState) by constructor.
  revert H. generalize emptyState.
  induction acts as [|a acts IH]; intros st H; simpl; [exact H|].
  apply IH, step_salesDated, H.
Qed.

(** C7. Two monthly reports for the same month with nothing in between show
    the same items total, sales total, sales profit and sales count; each
    call overwrites the snapshot of the month with those totals and its own
    [generatedAt], and changes neither the items nor the sales. *)
Theorem renderMonthlyReport_totals_idempotent
    (now1 now2 month : string) (st : State) :
  is_empty month = false ->
  salesDated st ->
  let r1 := fst (renderMonthlyReport now1 month st) in
  let st1 := snd (renderMonthlyReport now1 month st) in
  let r2 := fst (renderMonthlyReport now2 month st1) in
  let st2 := snd (renderMonthlyReport now2 month st1) in
  totals r1 = totals r2
  /\ monthlySnapshots st1 !! month
     = Some (mkSnapshot now1 (rep_grand r1) (rep_salesTotal r1)
               (rep_salesProfit r1) (rep_salesCount r1))
  /\ monthlySnapshots st2 !! month
     = Some (mkSnapshot now2 (rep_grand r1) (rep_salesTotal r1)
               (rep_salesProfit r1) (rep_salesCount r1))
  /\ items st2 = items st /\ sales st2 = sales st.
Proof.
  intros Hm Hd. unfold renderMonthlyReport, totals, viewMonth. rewrite Hm. simpl.
  rewrite (salesOfMonth_dated (slice0 10 now2) (slice0 10 now1) month _ Hd).
  rewrite !lookup_insert_eq. repeat split; reflexivity.
Qed.

Lemma renderMonthlyReport_totals_idempotent_witness :
  let r1 := fst (renderMonthlyReport "2024-01-31T10:00:00.000Z" "2024-01" soldState) in
  let st1 := snd (renderMonthlyReport "2024-01-31T10:00:00.000Z" "2024-01" soldState) in
  let r2 := fst (renderMonthlyReport "2024-02-01T09:00:00.000Z" "2024-01" st1) in
  let st2 := snd (renderMonthlyReport "2024-02-01T09:00:00.000Z" "2024-01" st1) in
  totals r1 = totals r2
  /\ monthlySnapshots st1 !! "2024-01"
     = Some (mkSnapshot "2024-01-31T10:00:00.000Z" (rep_grand r1)
               (rep_salesTotal r1) (rep_salesProfit r1) (rep_salesCount r1))
  /\ monthlySnapshots st2 !! "2024-01"
     = Some (mkSnapshot "2024-02-01T09:00:00.000Z" (rep_grand r1)
               (rep_salesTotal r1) (rep_salesProfit r1) (rep_salesCount r1))
  /\ items st2 = items soldState /\ sales st2 = sales soldState.
Proof.
  apply (renderMonthlyReport_totals_idempotent "2024-01-31T10:00:00.000Z"
           "2024-02-01T09:00:00.000Z" "2024-01" soldState).
  - reflexivity.
  - repeat constructor.
Defined.

(** The scenario of the running example: 500.00 of stock before the sale;
    450.00 of stock, 60.00 of revenue, 10.00 of profit and one sale after. *)
Example scenario_before_sale :
  rep_grand (fst (renderMonthlyReport "2024-01-31T10:00:00.000Z" "2024-01" riceState))
  = 500%Q.
Proof. vm_compute. reflexivity. Qed.

Example scenario_after_sale :
  totals (fst (renderMonthlyReport "2024-01-31T10:00:00.000Z" "2024-01" soldState))
  = (450%Q, 60%Q, 10%Q, 1%nat).
Proof. vm_compute. reflexivity. Qed.

(** ** The yearly summary *)

Lemma orZero_eq (x : Q) : orZero x == x.
Proof.
  unfold orZero. destruct (Qeq_bool x 0) eqn:E; [|reflexivity].
  apply Qeq_bool_iff in E. symmetry. exact E.
Qed.

Lemma is_empty_append a c b : is_empty (String.append a (String c b)) = false.
Proof. destruct a; reflexivity. Qed.

Lemma monthsOf_nonempty year m : In m (monthsOf year) -> is_empty m = false.
Proof.
  unfold monthsOf. intros H. apply in_map_iff in H. destruct H as (i & <- & _).
  apply is_empty_append.
Qed.

Lemma monthsOf_length year : length (monthsOf year) = 12%nat.
Proof. reflexivity. Qed.

(** The fallback valuation of the yearly summary is the grand total of the
    monthly report. *)
Lemma fallback_valuation m its acc accv :
  acc == snd accv ->
  fold_left (fun itemsTotal item =>
               if 0 <? stock item m
               then (itemsTotal + inject_Z (stock item m) * getLatestPrice item)%Q
               else itemsTotal) its acc
  == snd (fold_left (valuationStep m) its accv).
Proof.
  revert acc accv. induction its as [|it its IH]; intros acc accv H; simpl;
    [exact H|].
  apply IH. unfold valuationStep.
  destruct (stock it m <=? 0) eqn:E1; destruct (0 <? stock it m) eqn:E2;
    try (apply Z.leb_le in E1); try (apply Z.leb_gt in E1);
    try (apply Z.ltb_lt in E2); try (apply Z.ltb_ge in E2); try lia.
  - exact H.
  - simpl. rewrite H. rewrite (Qmult_comm (inject_Z (stock it m))). reflexivity.
Qed.

Lemma yearRow_combined today st m :
  y_combined (yearRow today st m)
  = (y_itemsTotal (yearRow today st m) + y_salesTotal (yearRow today st m))%Q.
Proof. unfold yearRow. destruct (monthlySnapshots st !! m); reflexivity. Qed.

(** A row of the yearly summary agrees with the monthly report of its month
    when the snapshot of the month, if any, is fresh. *)
Lemma yearRow_monthly now st m :
  is_empty m = false -> snapshotFresh now st m ->
  y_itemsTotal (yearRow (slice0 10 now) st m)
    == rep_grand (fst (renderMonthlyReport now m st))
  /\ y_salesTotal (yearRow (slice0 10 now) st m)
     == rep_salesTotal (fst (renderMonthlyReport now m st))
  /\ y_salesProfit (yearRow (slice0 10 now) st m)
     == rep_salesProfit (fst (renderMonthlyReport now m st)).
Proof.
  intros Hm. unfold snapshotFresh, yearRow.
  destruct (monthlySnapshots st !! m) as [snap|]; simpl.
  - intros (H1 & H2 & H3). rewrite !orZero_eq. auto.
  - intros _. unfold viewMonth. rewrite Hm.
    split; [|split; reflexivity].
    apply fallback_valuation. reflexivity.
Qed.

Lemma yearTotals_sums now st months acc a1 a2 a3 a4 :
  (forall m, In m months -> is_empty m = false /\ snapshotFresh now st m) ->
  t_items acc == a1 -> t_sales acc == a2 -> t_profit acc == a3 ->
  t_combined acc == a4 ->
  let t :=
    fold_left (fun acc r =>
                 mkYearTotals (t_items acc + y_itemsTotal r)%Q
                   (t_sales acc + y_salesTotal r)%Q
                   (t_profit acc + orZero (y_salesProfit r))%Q
                   (t_combined acc + y_combined r)%Q)
      (map (yearRow (slice0 10 now) st) months) acc in
  t_items t
    == fold_left Qplus
         (map (fun m => rep_grand (fst (renderMonthlyReport now m st))) months) a1
  /\ t_sales t
     == fold_left Qplus
          (map (fun m => rep_salesTotal (fst (renderMonthlyReport now m st)))
             months) a2
  /\ t_profit t
     == fold_left Qplus
          (map (fun m => rep_salesProfit (fst (renderMonthlyReport now m st)))
             months) a3
  /\ t_combined t
     == fold_left Qplus
          (map (fun m => (rep_grand (fst (renderMonthlyReport now m st))
                          + rep_salesTotal (fst (renderMonthlyReport now m st)))%Q)
             months) a4.
Proof.
  revert acc a1 a2 a3 a4.
  induction months as [|m months IH]; intros acc a1 a2 a3 a4 Hf H1 H2 H3 H4.
  - simpl. auto.
  - destruct (Hf m (or_introl eq_refl)) as [Hm Hfresh].
    destruct (yearRow_monthly now st m Hm Hfresh) as (E1 & E2 & E3).
    cbn [map fold_left]. apply IH.
    + intros m' Hin. apply Hf. right. exact Hin.
    + cbn [t_items]. rewrite H1, E1. reflexivity.
    + cbn [t_sales]. rewrite H2, E2. reflexivity.
    + cbn [t_profit]. rewrite H3, orZero_eq, E3. reflexivity.
    + cbn [t_combined]. rewrite H4, yearRow_combined, E1, E2. reflexivity.
Qed.

(** C6 (amended). When every snapshot that exists for a month of the year
    holds the totals the monthly report computes from the same document,
    the totals of the yearly summary are the sums over the twelve months of
    the monthly report's items total, sales total and sales profit, and the
    combined total is the sum of items total plus sales total; months
    without a snapshot are recomputed and always agree. *)
Theorem renderYearly_sums_fresh_months
    (now : string) (yearField : parsed Z) (currentYear : Z) (st : State) :
  (forall m, In m (monthsOf (resolveYear yearField currentYear)) ->
             snapshotFresh now st m) ->
  let months := monthsOf (resolveYear yearField currentYear) in
  let monthly := fun m => fst (renderMonthlyReport now m st) in
  let t := snd (renderYearly (slice0 10 now) yearField currentYear st) in
  length months = 12%nat
  /\ t_items t == sumQ (map (fun m => rep_grand (monthly m)) months)
  /\ t_sales t == sumQ (map (fun m => rep_salesTotal (monthly m)) months)
  /\ t_profit t == sumQ (map (fun m => rep_salesProfit (monthly m)) months)
  /\ t_combined t
     == sumQ (map (fun m => (rep_grand (monthly m) + rep_salesTotal (monthly m))%Q)
                months).
Proof.
  intros Hf. split; [reflexivity|].
  unfold renderYearly, yearTotals, sumQ. cbn [snd].
  apply yearTotals_sums; try reflexivity.
  intros m Hin. split; [eapply monthsOf_nonempty; exact Hin | apply Hf, Hin].
Qed.

(** On that document the yearly summary of 2024 shows an items total of 0,
    taken from the January snapshot, while the monthly reports computed from
    the same document sum to 500. *)
Lemma renderYearly_stale_snapshot_differs :
  t_items (snd (renderYearly "2024-01-31" (Num 2024) 2024 staleState)) == 0
  /\ sumQ (map (fun m =>
                  rep_grand
                    (fst (renderMonthlyReport "2024-01-31T10:00:00.000Z" m
                            staleState)))
             (monthsOf 2024)) == 500
  /\ ~ t_items (snd (renderYearly "2024-01-31" (Num 2024) 2024 staleState))
       == sumQ (map (fun m =>
                       rep_grand
                         (fst (renderMonthlyReport "2024-01-31T10:00:00.000Z" m
                                 staleState)))
                  (monthsOf 2024)).
Proof.
  split; [vm_compute; reflexivity|]. split; [vm_compute; reflexivity|].
  vm_compute. discriminate.
Qed.

Lemma renderYearly_sums_fresh_months_witness :
  let months := monthsOf 2024 in
  let monthly :=
    fun m => fst (renderMonthlyReport "2024-02-01T09:00:00.000Z" m snapshotState) in
  let t :=
    snd (renderYearly (slice0 10 "2024-02-01T09:00:00.000Z") (Num 2024) 2024
           snapshotState) in
  length months = 12%nat
  /\ t_items t == sumQ (map (fun m => rep_grand (monthly m)) months)
  /\ t_sales t == sumQ (map (fun m => rep_salesTotal (monthly m)) months)
  /\ t_profit t == sumQ (map (fun m => rep_salesProfit (monthly m)) months)
  /\ t_combined t
     == sumQ (map (fun m => (rep_grand (monthly m) + rep_salesTotal (monthly m))%Q)
                months).
Proof.
  apply (renderYearly_sums_fresh_months "2024-02-01T09:00:00.000Z" (Num 2024)
           2024 snapshotState).
  intros m Hin. vm_compute in Hin.
  repeat (destruct Hin as [<-|Hin];
          [vm_compute; first [exact I | repeat split; reflexivity]|]).
  destruct Hin.
Defined.

Example yearly_of_snapshotState :
  snd (renderYearly "2024-02-01" (Num 2024) 2024 snapshotState)
  = mkYearTotals 450 60 10 510.
Proof. vm_compute. reflexivity. Qed.

(** * Further properties *)

(** ** Normalized names *)







Lemma trimStart_clean (s : string) : startsClean (trimStart s).
Proof.
  induction s as [|c s IH]; simpl; [exact I|].
  destruct (is_space c) eqn:E; [exact IH | exact E].
Qed.

Lemma trimStart_of_clean (s : string) : startsClean s -> trimStart s = s.
Proof. destruct s as [|c s]; simpl; [reflexivity|]. intros ->. reflexivity. Qed.

Lemma trimEnd_clean (s : string) : startsClean s -> startsClean (trimEnd s).
Proof.
  destruct s as [|c s]; simpl; [auto|]. intros E.
  destruct (trimEnd s); [rewrite E|]; exact E.
Qed.

Lemma trimEnd_idem (s : string) : trimEnd (trimEnd s) = trimEnd s.
Proof.
  induction s as [|c s IH]; simpl; [reflexivity|].
  destruct (trimEnd s) as [|d t] eqn:E.
  - destruct (is_space c) eqn:Ec; simpl; [reflexivity|]. rewrite Ec. reflexivity.
  - change (trimEnd (String c (String d t))) with
      (match trimEnd (String d t) with
       | EmptyString => if is_space c then EmptyString else String c EmptyString
       | t' => String c t'
       end).
    rewrite IH. reflexivity.
Qed.

Lemma trim_idem (s : string) : trim (trim s) = trim s.
Proof.
  unfold trim.
  rewrite (trimStart_of_clean (trimEnd (trimStart s))).
  - apply trimEnd_idem.
  - apply trimEnd_clean, trimStart_clean.
Qed.


(** Names that differ in casing and in surrounding blanks only share their
    key. *)
Example normalizeName_rice :
  normalizeName "  RiCe " = "rice" /\ normalizeName "rice" = "rice".
Proof. split; reflexivity. Qed.

(** ** What an action does to the items *)

Lemma step_stepItems (st : State) (a : Action) : stepItems st a (items (step st a)).
Proof.
  destruct a as [today f p q d|today f p d|ks c|today rm k v|today k v
                |today rm k dec|today d b ad c i p q mp|now rm]; simpl.
  - unfold upsertItem. destruct p as [|p]; [constructor|].
    destruct q as [|q]; [constructor|].
    destruct (_ || _) eqn:Hv; [constructor|].
    apply orb_false_iff in Hv. destruct Hv as [Hn Hq]. apply Z.leb_gt in Hq.
    destruct (getItem _ (items st)) as [item|] eqn:Hitem; simpl.
    + apply (si_change st _ _ item); [tauto | exact Hitem|].
      apply (change_upsert today p q d item Hq).
    + apply (si_new st _ today f p q d); auto.
  - unfold updatePrice. destruct p as [|p]; [constructor|].
    destruct (is_empty _); [constructor|].
    destruct (getItem _ (items st)) as [item|] eqn:Hitem; simpl; [|constructor].
    apply (si_change st _ _ item); [tauto | exact Hitem | constructor].
  - unfold deleteItems. destruct (decide _); [constructor|].
    destruct c; simpl; constructor.
  - unfold setQuantity.
    destruct (getItem _ (items st)) as [item|] eqn:Hitem; simpl; [|constructor].
    apply (si_change st _ _ item); [tauto | exact Hitem | constructor].
  - unfold inlinePrice. destruct v as [|p]; [constructor|].
    destruct (Qlt_le_dec p 0); [constructor|].
    destruct (getItem _ (items st)) as [item|] eqn:Hitem; simpl; [|constructor].
    destruct (negb _); simpl; [|constructor].
    apply (si_change st _ _ item); [tauto | exact Hitem | constructor].
  - unfold adjustQuantity.
    destruct (getItem _ (items st)) as [item|] eqn:Hitem; simpl; [|constructor].
    apply (si_change st _ _ item); [tauto | exact Hitem | constructor].
  - unfold recordSale. destruct p as [|p]; [constructor|].
    destruct q as [|q]; [constructor|].
    destruct (_ || _) eqn:Hv; [constructor|].
    apply orb_false_iff in Hv. destruct Hv as [_ Hq]. apply Z.leb_gt in Hq.
    destruct (getItem _ (items st)) as [item|] eqn:Hitem; simpl; [|constructor].
    apply (si_sale st _ _ item (ym today d) (ymd today d) q); [exact I | exact Hitem | exact Hq].
  - constructor.
Qed.

Lemma plainChange_extends item item' : plainChange item item' -> itemExtends item item'.
Proof.
  intros [today p q d it Hq|it e|it m ds next src]; unfold itemExtends.
  - rewrite upsertExisting_name, upsertExisting_priceHistory.
    split; [reflexivity|]. split.
    + destruct (Qeq_bool _ p); [exists []; rewrite app_nil_r|eexists]; reflexivity.
    + unfold upsertExisting, logQuantityChange.
      rewrite decide_False by lia. destruct (negb _); eexists; reflexivity.
  - simpl. split; [reflexivity|]. split; [eexists; reflexivity|].
    exists []. rewrite app_nil_r. reflexivity.
  - unfold logQuantityChange. destruct (decide _); simpl;
      (split; [reflexivity|]; split; [exists []; rewrite app_nil_r; reflexivity|]).
    + exists []. rewrite app_nil_r. reflexivity.
    + eexists. reflexivity.
Qed.

Lemma soldItem_extends month ds q item : itemExtends item (soldItem month ds q item).
Proof.
  unfold soldItem, logQuantityChange, itemExtends.
  destruct (decide _); simpl;
    (split; [reflexivity|]; split; [exists []; rewrite app_nil_r; reflexivity|]).
  - exists []. rewrite app_nil_r. reflexivity.
  - eexists. reflexivity.
Qed.

(** X2. Whatever one action does, an item that is still stored under its key
    afterwards has the same display name, and its price history and its
    audit log are the old ones with entries added at the end: no handler
    rewrites or drops a history entry of an item it keeps. *)
Theorem step_histories_append_only
    (st : State) (a : Action) (key : string) (item item' : Item) :
  getItem key (items st) = Some item ->
  getItem key (items (step st a)) = Some item' ->
  itemExtends item item'.
Proof.
  intros Hitem.
  assert (Hrefl : itemExtends item item).
  { split; [reflexivity|].
    split; exists []; rewrite app_nil_r; reflexivity. }
  destruct (step_stepItems st a)
    as [|keys|today f p q d _ _ _ Hnone|k it it' _ Hk Hc|k it m ds q _ Hk _].
  - rewrite Hitem. intros [= <-]. exact Hrefl.
  - rewrite getItem_deleteItems. destruct (decide _); [discriminate|].
    rewrite Hitem. intros [= <-]. exact Hrefl.
  - rewrite getItem_setItem_ne by congruence.
    rewrite Hitem. intros [= <-]. exact Hrefl.
  - destruct (decide (k = key)) as [->|Hne].
    + rewrite getItem_setItem_eq. intros [= <-].
      rewrite Hitem in Hk. injection Hk as <-. apply plainChange_extends, Hc.
    + rewrite getItem_setItem_ne by assumption.
      rewrite Hitem. intros [= <-]. exact Hrefl.
  - destruct (decide (k = key)) as [->|Hne].
    + rewrite getItem_setItem_eq. intros [= <-].
      rewrite Hitem in Hk. injection Hk as <-. apply soldItem_extends.
    + rewrite getItem_setItem_ne by assumption.
      rewrite Hitem. intros [= <-]. exact Hrefl.
Qed.

Lemma step_histories_append_only_witness :
  itemExtends (itemAt "rice" riceState) (itemAt "rice" (step riceState riceSaleAction)).
Proof.
  apply (step_histories_append_only riceState riceSaleAction "rice").
  - vm_compute. reflexivity.
  - vm_compute. reflexivity.
Defined.

(** ** Only the add form creates items *)

(** X3. An action other than a submission of the add form never creates an
    item: a key that is free stays free.  So a price update, a quantity
    edit, a +/- click or a sale on a name that is not stored adds nothing
    under that name. *)
Theorem only_add_form_creates_items (st : State) (a : Action) (key : string) :
  ~ isAddItem a ->
  getItem key (items st) = None ->
  getItem key (items (step st a)) = None.
Proof.
  intros Ha Hnone.
  destruct (step_stepItems st a)
    as [|keys|today f p q d Heq _ _ _|k it it' _ Hk _|k it m ds q _ Hk _].
  - exact Hnone.
  - rewrite getItem_deleteItems. destruct (decide _); [reflexivity | exact Hnone].
  - subst a. destruct Ha. exact I.
  - rewrite getItem_setItem_ne by congruence. exact Hnone.
  - rewrite getItem_setItem_ne by congruence. exact Hnone.
Qed.

Lemma only_add_form_creates_items_witness :
  getItem "beans"
    (items (step riceState
              (UpdatePrice "2024-01-06" "Beans" (Num 3%Q) "2024-01-06")))
  = None.
Proof.
  apply (only_add_form_creates_items riceState).
  - intros H. exact H.
  - vm_compute. reflexivity.
Defined.

(** ** Keys and display names *)

Lemma items_inv_setItem (P : string -> Item -> Prop) its key item :
  (forall k i, getItem k its = Some i -> P k i) ->
  P key item ->
  forall k i, getItem k (setItem key item its) = Some i -> P k i.
Proof.
  intros H Hi k i. destruct (decide (key = k)) as [->|Hne].
  - rewrite getItem_setItem_eq. intros [= <-]. exact Hi.
  - rewrite getItem_setItem_ne by assumption. apply H.
Qed.

Lemma items_inv_deleteItems (P : string -> Item -> Prop) its (keys : list string) :
  (forall k i, getItem k its = Some i -> P k i) ->
  forall k i,
    getItem k (fold_left (fun its k => deleteItem k its) keys its) = Some i ->
    P k i.
Proof.
  intros H k i. rewrite getItem_deleteItems.
  destruct (decide _); [discriminate | apply H].
Qed.

Lemma itemKeyed_extends key item item' :
  itemKeyed key item -> itemExtends item item' -> itemKeyed key item'.
Proof. intros H [E _]. unfold itemKeyed. rewrite E. exact H. Qed.

Lemma newItem_keyed today f p q d :
  is_empty (trim f) = false ->
  itemKeyed (normalizeName (trim f)) (newItem today f p q d).
Proof.
  intros Hn. unfold itemKeyed. simpl. rewrite !trim_idem.
  split; [exact Hn|]. split; reflexivity.
Qed.

Lemma step_keysNormalized st a : keysNormalized st -> keysNormalized (step st a).
Proof.
  unfold keysNormalized. intros H.
  destruct (step_stepItems st a)
    as [|keys|today f p q d _ Hn _ _|k it it' _ Hk Hc|k it m ds q _ Hk _].
  - exact H.
  - apply items_inv_deleteItems, H.
  - apply items_inv_setItem; [exact H | apply newItem_keyed, Hn].
  - apply items_inv_setItem; [exact H|].
    eapply itemKeyed_extends; [apply (H k it Hk) | apply plainChange_extends, Hc].
  - apply items_inv_setItem; [exact H|].
    eapply itemKeyed_extends; [apply (H k it Hk) | apply soldItem_extends].
Qed.

Lemma run_keysNormalized acts st :
  keysNormalized st -> keysNormalized (run st acts).
Proof.
  revert st. induction acts as [|a acts IH]; intros st H; simpl; [exact H|].
  apply IH, step_keysNormalized, H.
Qed.

Lemma emptyState_keysNormalized : keysNormalized emptyState.
Proof. intros k i. discriminate. Qed.

(** X4. In every document the handlers produce from an empty store, each
    item has a display name that is not empty and is trimmed, and is stored
    under the normalized form of that name. *)
Theorem reachable_keysNormalized (acts : list Action) :
  keysNormalized (run emptyState acts).
Proof. apply run_keysNormalized, emptyState_keysNormalized. Qed.

(** X5. When items are stored under their normalized names, a sale entered
    with the display name of a stored item, the other fields filled in and a
    positive quantity is never refused, and it is recorded under that
    display name. *)
Theorem recordSale_by_display_name
    (today date buyer address contact : string) (p : Q) (q : Z)
    (manual : option (parsed Q)) (st : State) (key : string) (item : Item) :
  keysNormalized st ->
  getItem key (items st) = Some item ->
  is_empty date = false -> is_empty (trim buyer) = false ->
  is_empty (trim address) = false -> is_empty (trim contact) = false ->
  0 < q ->
  exists st' sale,
    recordSale today date buyer address contact (name item) (Num p) (Num q)
      manual st = Saved st'
    /\ sales st' = sales st ++ [sale]
    /\ s_item sale = name item
    /\ s_date sale = date.
Proof.
  intros Hk Hitem Hd Hb Ha Hc Hq.
  destruct (Hk key item Hitem) as (Hne & Htrim & Hkey).
  unfold recordSale. rewrite Htrim, Hkey, Hd, Hb, Ha, Hc, Hne, Hitem.
  replace (q <=? 0) with false by (symmetry; apply Z.leb_gt; exact Hq).
  simpl. eexists _, _. split; [reflexivity|]. simpl.
  split; [reflexivity|]. split; [reflexivity|]. apply ymd_dated, Hd.
Qed.

Lemma recordSale_by_display_name_witness :
  exists st' sale,
    recordSale "2024-01-10" "2024-01-10" "Ann" "1 Main St" "555"
      (name (itemAt "rice" riceState)) (Num 12%Q) (Num 5) None riceState
      = Saved st'
    /\ sales st' = sales riceState ++ [sale]
    /\ s_item sale = name (itemAt "rice" riceState)
    /\ s_date sale = "2024-01-10".
Proof.
  apply (recordSale_by_display_name "2024-01-10" "2024-01-10" "Ann" "1 Main St"
           "555" 12 5 None riceState "rice").
  - exact (run_keysNormalized
             [AddItem "2024-01-05" "Rice" (Num 10%Q) (Num 50) "2024-01-05"]
             emptyState emptyState_keysNormalized).
  - vm_compute. reflexivity.
  - reflexivity.
  - reflexivity.
  - reflexivity.
  - reflexivity.
  - lia.
Defined.

(** ** The audit log accounts for the stock *)


Lemma stock_setStock item m q m' :
  stock (setStock item m q) m' = if decide (m = m') then q else stock item m'.
Proof.
  unfold stock. simpl. rewrite lookup_insert.
  destruct (decide (m = m')); reflexivity.
Qed.

Lemma stock_logQuantityChange item m d delta src m' :
  stock (logQuantityChange item m d delta src) m' = stock item m'.
Proof. unfold logQuantityChange. destruct (decide _); reflexivity. Qed.











(** ** Sorted views keep every entry *)

Lemma insert_sorted_perm {A} (cmp : A -> A -> comparison) x l :
  Permutation (insert_sorted cmp x l) (x :: l).
Proof.
  induction l as [|y l IH]; simpl; [reflexivity|].
  destruct (cmp x y); try reflexivity.
  rewrite IH. apply perm_swap.
Qed.

Lemma sort_perm {A} (cmp : A -> A -> comparison) l : Permutation (sort cmp l) l.
Proof.
  induction l as [|x l IH]; simpl; [reflexivity|].
  rewrite insert_sorted_perm, IH. reflexivity.
Qed.



Lemma bySaleDate_antisym (a b : Sale) :
  localeCompare (s_date a) (s_date b) = CompOpp (localeCompare (s_date b) (s_date a)).
Proof. apply localeCompare_antisym. Qed.

Lemma bySaleDate_trans (a b c : Sale) :
  localeCompare (s_date a) (s_date b) <> Gt ->
  localeCompare (s_date b) (s_date c) <> Gt ->
  localeCompare (s_date a) (s_date c) <> Gt.
Proof. apply localeCompare_le_trans. Qed.

(** X8. The sales listed for a month are exactly the recorded sales dated in
    that month, each as often as it was recorded, in ascending order of
    date. *)
Theorem salesForMonth_sorted_month (today month : string) (st : State) :
  Permutation (salesForMonth today month st)
    (filter (fun s => ym today (s_date s) = month) (sales st))
  /\ (forall s, In s (salesForMonth today month st)
                <-> In s (sales st) /\ ym today (s_date s) = month)
  /\ StronglySorted (fun a b => dateLe (s_date a) (s_date b))
       (salesForMonth today month st).
Proof.
  unfold salesForMonth, salesOfMonth. split; [apply sort_perm|]. split.
  - intros s. rewrite sort_In, <- !list_elem_of_In, list_elem_of_filter. tauto.
  - apply (sort_sorted _ bySaleDate_antisym bySaleDate_trans).
Qed.


(** ** Keys are unique *)

Lemma getItem_None_keys key its : getItem key its = None <-> ~ In key (map fst its).
Proof.
  induction its as [|[k it] its IH]; simpl; [tauto|].
  destruct (decide (k = key)) as [->|Hne].
  - split; [discriminate | intros H; destruct H; auto].
  - rewrite IH. tauto.
Qed.

Lemma setItem_fresh key item its :
  getItem key its = None -> setItem key item its = its ++ [(key, item)].
Proof.
  induction its as [|[k it] its IH]; simpl; [reflexivity|].
  destruct (decide (k = key)); [discriminate|].
  intros H. rewrite (IH H). reflexivity.
Qed.

Lemma setItem_keys key item its old :
  getItem key its = Some old -> map fst (setItem key item its) = map fst its.
Proof.
  induction its as [|[k it] its IH]; simpl; [discriminate|].
  destruct (decide (k = key)); [reflexivity|].
  intros H. simpl. rewrite (IH H). reflexivity.
Qed.

Lemma deleteItem_keys_In k key its :
  In k (map fst (deleteItem key its)) -> In k (map fst its).
Proof.
  induction its as [|[k' it] its IH]; simpl; [tauto|].
  destruct (decide (k' = key)); simpl; tauto.
Qed.

Lemma deleteItem_NoDup key its :
  NoDup (map fst its) -> NoDup (map fst (deleteItem key its)).
Proof.
  induction its as [|[k it] its IH]; simpl; [auto|].
  intros H. apply NoDup_cons in H. destruct H as [Hk H].
  destruct (decide (k = key)); simpl; [auto|].
  apply NoDup_cons. split; [|auto].
  rewrite list_elem_of_In. intros Hin. apply deleteItem_keys_In in Hin.
  apply Hk, list_elem_of_In, Hin.
Qed.

Lemma deleteItems_NoDup (keys : list string) its :
  NoDup (map fst its) ->
  NoDup (map fst (fold_left (fun its k => deleteItem k its) keys its)).
Proof.
  revert its. induction keys as [|k keys IH]; intros its H; cbn [fold_left];
    [exact H | apply IH, deleteItem_NoDup, H].
Qed.

Lemma step_keysUnique st a : keysUnique st -> keysUnique (step st a).
Proof.
  unfold keysUnique. intros H.
  destruct (step_stepItems st a)
    as [|keys|today f p q d _ _ _ Hnone|k it it' _ Hk _|k it m ds q _ Hk _].
  - exact H.
  - apply deleteItems_NoDup, H.
  - rewrite (setItem_fresh _ _ _ Hnone), map_app. simpl.
    apply NoDup_app. split; [exact H|]. split; [|apply NoDup_singleton].
    intros x Hx Hin. apply list_elem_of_singleton in Hin. subst x.
    apply getItem_None_keys in Hnone. apply Hnone, list_elem_of_In, Hx.
  - rewrite (setItem_keys _ _ _ _ Hk). exact H.
  - rewrite (setItem_keys _ _ _ _ Hk). exact H.
Qed.

Lemma run_keysUnique acts st : keysUnique st -> keysUnique (run st acts).
Proof.
  revert st. induction acts as [|a acts IH]; intros st H; simpl; [exact H|].
  apply IH, step_keysUnique, H.
Qed.

Lemma emptyState_keysUnique : keysUnique emptyState.
Proof. apply NoDup_nil. exact I. Qed.

Lemma In_getItem key item its :
  NoDup (map fst its) -> In (key, item) its -> getItem key its = Some item.
Proof.
  induction its as [|[k it] its IH]; simpl; [tauto|].
  intros H. apply NoDup_cons in H. destruct H as [Hk H].
  intros [[= -> ->]|Hin].
  - rewrite decide_True by reflexivity. reflexivity.
  - destruct (decide (k = key)) as [->|Hne]; [|auto].
    exfalso. apply Hk, list_elem_of_In, in_map_iff. exists (key, item). auto.
Qed.

(** In every document the handlers produce from an empty store no key
    occurs twice, so the item read under a key is the only entry with that
    key. *)
Lemma reachable_keysUnique (acts : list Action) (key : string) (item : Item) :
  keysUnique (run emptyState acts)
  /\ (In (key, item) (items (run emptyState acts)) <->
      getItem key (items (run emptyState acts)) = Some item).
Proof.
  pose proof (run_keysUnique acts emptyState emptyState_keysUnique) as H.
  split; [exact H|]. split; [apply In_getItem, H | apply getItem_In].
Qed.

(** ** The items table and the receipt *)



Lemma tableStep_fold month l acc :
  fold_left (tableStep month) l acc
  = (fst acc ++ map (tableRowOf month) l,
     fold_left (fun a e => (a + stockValue month (snd e))%Q) l (snd acc)).
Proof.
  revert acc. induction l as [|e l IH]; intros [rows g]; simpl.
  - rewrite app_nil_r. reflexivity.
  - rewrite IH. simpl. rewrite <- app_assoc. reflexivity.
Qed.







(** X11. The items table shows one row for each stored item whose name
    contains the search text, compared without regard to case and after
    trimming the search text, and no other row; each row carries the item's
    latest price, its stock for the month shown and their product. *)
Theorem renderItemsTable_rows_match_search
    (today reportMonth searchField : string) (st : State) (row : TableRow) :
  In row (fst (renderItemsTable today reportMonth searchField st))
  <-> exists e,
        In e (items st)
        /\ includes (toLowerCase (trim searchField)) (toLowerCase (name (snd e)))
           = true
        /\ row = tableRowOf (viewMonth today reportMonth) e.
Proof.
  unfold renderItemsTable, shownItems. rewrite tableStep_fold. simpl.
  rewrite in_map_iff. split.
  - intros (e & <- & He). apply sort_In in He.
    apply list_elem_of_In, list_elem_of_filter in He. destruct He as [Hm He].
    exists e. rewrite <- list_elem_of_In. auto.
  - intros (e & He & Hm & ->). exists e. split; [reflexivity|].
    apply sort_In, list_elem_of_In, list_elem_of_filter.
    rewrite list_elem_of_In. auto.
Qed.

Example search_is_case_insensitive :
  map tr_name (fst (renderItemsTable "2024-01-31" "2024-01" " RI " riceState))
  = ["Rice"]
  /\ fst (renderItemsTable "2024-01-31" "2024-01" "beans" riceState) = [].
Proof. split; vm_compute; reflexivity. Qed.





(** X13. The price-history table lists every price entry of every stored
    item with the item's name, each as often as it is stored, and nothing
    else. *)
Theorem renderPriceHistory_lists_every_entry (st : State) :
  Permutation (renderPriceHistory st) (historyRowsOf (values (items st)))
  /\ forall row,
       In row (renderPriceHistory st)
       <-> exists key item ph,
             In (key, item) (items st) /\ In ph (priceHistory item)
             /\ row = mkHistoryRow (name item) (pe_price ph) (pe_date ph).
Proof.
  unfold renderPriceHistory. split; [apply sort_perm|].
  intros row. rewrite sort_In. unfold historyRowsOf, values.
  rewrite in_flat_map. split.
  - intros (item & Hitem & Hrow). apply in_map_iff in Hitem.
    destruct Hitem as ([k it] & <- & Hin). apply in_map_iff in Hrow.
    destruct Hrow as (ph & <- & Hph). exists k, it, ph. auto.
  - intros (k & item & ph & Hin & Hph & ->). exists item. split.
    + apply in_map_iff. exists (k, item). auto.
    + apply in_map_iff. exists ph. auto.
Qed.

(** ** Price updates *)

Lemma dateLt_le_trans (a b c : string) : dateLt a b -> dateLe b c -> dateLt a c.
Proof.
  unfold dateLt, dateLe, localeCompare. intros Hab Hbc.
  destruct (String.compare b c) eqn:E; try congruence.
  - apply String.compare_eq_iff in E. subst c. exact Hab.
  - exact (string_compare_lt_trans _ _ _ Hab E).
Qed.

(** A pushed entry that is older than some entry of the history leaves the
    latest price as it was. *)
Lemma getLatestPrice_pushPrice_older item e newer :
  In newer (priceHistory item) ->
  dateLt (pe_date e) (pe_date newer) ->
  getLatestPrice (pushPrice item e) = getLatestPrice item.
Proof.
  intros Hin Hlt. rewrite !getLatestPrice_latest. simpl.
  destruct (latest byDate (priceHistory item)) as [m|] eqn:E.
  - destruct (latest_inv byDate byDate_antisym byDate_trans _ _ E)
      as (l1 & l2 & Heq & F1 & F2).
    assert (Hm : dateLe (pe_date newer) (pe_date m)).
    { rewrite Heq in Hin. apply in_app_or in Hin.
      rewrite List.Forall_forall in F1, F2.
      destruct Hin as [Hin|[<-|Hin]].
      - apply (F1 _ Hin).
      - unfold dateLe. rewrite localeCompare_refl. discriminate.
      - unfold dateLe. specialize (F2 _ Hin). unfold byDate in F2.
        rewrite F2. discriminate. }
    rewrite Heq, <- app_assoc. simpl.
    rewrite (latest_split byDate byDate_antisym l1 m (l2 ++ [e]) F1);
      [reflexivity|].
    apply Forall_app. split; [exact F2|]. constructor; [|constructor].
    exact (dateLt_le_trans _ _ _ Hlt Hm).
  - exfalso. destruct (priceHistory item) as [|x l]; [destruct Hin|].
    simpl in E. destruct (latest byDate l) as [m|]; [destruct (byDate x m)|];
      discriminate.
Qed.

Lemma updatePrice_existing today nameField p date st item :
  is_empty (trim nameField) = false ->
  getItem (normalizeName (trim nameField)) (items st) = Some item ->
  updatePrice today nameField (Num p) date st
  = Saved (withItems st
             (setItem (normalizeName (trim nameField))
                (pushPrice item (mkPriceEntry p (ymd today date))) (items st))).
Proof. intros Hn Hitem. unfold updatePrice. rewrite Hn, Hitem. reflexivity. Qed.

(** X14. A price update on a stored item always appends its entry, even when
    the price is the current one; when no entry of the history is dated
    after the update, the price entered is the latest price afterwards. *)
Theorem updatePrice_takes_effect
    (today nameField : string) (p : Q) (date : string) (st : State) (item : Item) :
  is_empty (trim nameField) = false ->
  getItem (normalizeName (trim nameField)) (items st) = Some item ->
  exists st' item',
    updatePrice today nameField (Num p) date st = Saved st'
    /\ getItem (normalizeName (trim nameField)) (items st') = Some item'
    /\ priceHistory item' = priceHistory item ++ [mkPriceEntry p (ymd today date)]
    /\ quantities item' = quantities item
    /\ sales st' = sales st
    /\ (Forall (fun x => dateLe (pe_date x) (ymd today date)) (priceHistory item) ->
        getLatestPrice item' = p).
Proof.
  intros Hn Hitem. eexists _, _.
  split; [apply (updatePrice_existing _ _ _ _ _ item); assumption|].
  split; [simpl; apply getItem_setItem_eq|].
  repeat split. intros H.
  apply (getLatestPrice_pushPrice item (mkPriceEntry p (ymd today date)) H).
Qed.

Lemma updatePrice_takes_effect_witness :
  exists st' item',
    updatePrice "2024-02-01" "Rice" (Num 11%Q) "2024-02-01" riceState = Saved st'
    /\ getItem (normalizeName (trim "Rice")) (items st') = Some item'
    /\ priceHistory item'
       = priceHistory (itemAt "rice" riceState)
         ++ [mkPriceEntry 11 (ymd "2024-02-01" "2024-02-01")]
    /\ quantities item' = quantities (itemAt "rice" riceState)
    /\ sales st' = sales riceState
    /\ (Forall (fun x => dateLe (pe_date x) (ymd "2024-02-01" "2024-02-01"))
          (priceHistory (itemAt "rice" riceState)) ->
        getLatestPrice item' = 11%Q).
Proof.
  apply (updatePrice_takes_effect "2024-02-01" "Rice" 11 "2024-02-01" riceState).
  - reflexivity.
  - vm_compute. reflexivity.
Defined.

(** X15. A price update dated before some entry of the item's history is
    recorded but does not change the latest price: the price used for
    valuation and for the cost of a sale stays the one of the newest
    date. *)
Theorem updatePrice_backdated_keeps_latest
    (today nameField : string) (p : Q) (date : string) (st : State)
    (item : Item) (newer : PriceEntry) :
  is_empty (trim nameField) = false ->
  getItem (normalizeName (trim nameField)) (items st) = Some item ->
  In newer (priceHistory item) ->
  dateLt (ymd today date) (pe_date newer) ->
  exists st' item',
    updatePrice today nameField (Num p) date st = Saved st'
    /\ getItem (normalizeName (trim nameField)) (items st') = Some item'
    /\ In (mkPriceEntry p (ymd today date)) (priceHistory item')
    /\ getLatestPrice item' = getLatestPrice item.
Proof.
  intros Hn Hitem Hin Hlt. eexists _, _.
  split; [apply (updatePrice_existing _ _ _ _ _ item); assumption|].
  split; [simpl; apply getItem_setItem_eq|].
  split.
  - simpl. apply in_or_app. right. left. reflexivity.
  - apply (getLatestPrice_pushPrice_older item
             (mkPriceEntry p (ymd today date)) newer Hin Hlt).
Qed.

Lemma updatePrice_backdated_keeps_latest_witness :
  exists st' item',
    updatePrice "2024-03-02" "Rice" (Num 12%Q) "2024-01-05" marchRiceState
      = Saved st'
    /\ getItem (normalizeName (trim "Rice")) (items st') = Some item'
    /\ In (mkPriceEntry 12 (ymd "2024-03-02" "2024-01-05")) (priceHistory item')
    /\ getLatestPrice item' = getLatestPrice (itemAt "rice" marchRiceState).
Proof.
  apply (updatePrice_backdated_keeps_latest "2024-03-02" "Rice" 12 "2024-01-05"
           marchRiceState (itemAt "rice" marchRiceState)
           (mkPriceEntry 10 "2024-03-01")).
  - reflexivity.
  - vm_compute. reflexivity.
  - left. reflexivity.
  - reflexivity.
Defined.

(** X16. The inline price field ignores an unparsable or negative entry.  A
    non-negative price entered on a day no entry of the history is dated
    after becomes the latest price, and entering that price again changes
    nothing. *)
Theorem inlinePrice_sets_latest_once
    (today key : string) (p : Q) (st : State) (item : Item) :
  getItem key (items st) = Some item ->
  (0 <= p)%Q ->
  Forall (fun x => dateLe (pe_date x) today) (priceHistory item) ->
  inlinePrice today key NaN st = Returned
  /\ (forall n, (n < 0)%Q -> inlinePrice today key (Num n) st = Returned)
  /\ exists item1,
       getItem key (items (persisted st (inlinePrice today key (Num p) st)))
         = Some item1
       /\ getLatestPrice item1 == p
       /\ forall today2,
            inlinePrice today2 key (Num p)
              (persisted st (inlinePrice today key (Num p) st))
            = Returned.
Proof.
  intros Hitem Hp Hdates. split; [reflexivity|]. split.
  - intros n Hn. unfold inlinePrice.
    destruct (Qlt_le_dec n 0) as [|Hle]; [reflexivity|].
    exfalso. exact (Qlt_not_le _ _ Hn Hle).
  - unfold inlinePrice.
    destruct (Qlt_le_dec p 0) as [Hlt|_]; [exfalso; exact (Qlt_not_le _ _ Hlt Hp)|].
    rewrite Hitem.
    destruct (Qeq_bool (getLatestPrice item) p) eqn:B; simpl.
    + exists item. split; [exact Hitem|]. split; [apply Qeq_bool_iff, B|].
      intros today2. rewrite Hitem, B. reflexivity.
    + exists (pushPrice item (mkPriceEntry p today)).
      rewrite getItem_setItem_eq. split; [reflexivity|].
      rewrite (getLatestPrice_pushPrice item (mkPriceEntry p today) Hdates).
      split; [reflexivity|]. intros today2. simpl.
      rewrite (proj2 (Qeq_bool_iff p p)) by reflexivity. reflexivity.
Qed.

Lemma inlinePrice_sets_latest_once_witness :
  inlinePrice "2024-01-06" "rice" NaN riceState = Returned
  /\ (forall n, (n < 0)%Q -> inlinePrice "2024-01-06" "rice" (Num n) riceState = Returned)
  /\ exists item1,
       getItem "rice"
         (items (persisted riceState
                   (inlinePrice "2024-01-06" "rice" (Num 11%Q) riceState)))
         = Some item1
       /\ getLatestPrice item1 == 11
       /\ forall today2,
            inlinePrice today2 "rice" (Num 11%Q)
              (persisted riceState
                 (inlinePrice "2024-01-06" "rice" (Num 11%Q) riceState))
            = Returned.
Proof.
  apply (inlinePrice_sets_latest_once "2024-01-06" "rice" 11 riceState
           (itemAt "rice" riceState)).
  - vm_compute. reflexivity.
  - discriminate.
  - repeat constructor. discriminate.
Defined.

(** ** Snapshots *)

Lemma step_snapshots_unchanged st a :
  ~ isMonthlyReport a -> monthlySnapshots (step st a) = monthlySnapshots st.
Proof.
  intros Ha. destruct a; simpl;
    unfold upsertItem, updatePrice, deleteItems, setQuantity, inlinePrice,
      adjustQuantity, recordSale;
    handler_cases; try reflexivity.
  destruct Ha. exact I.
Qed.

Lemma run_snapshots_unchanged acts st :
  Forall (fun a => ~ isMonthlyReport a) acts ->
  monthlySnapshots (run st acts) = monthlySnapshots st.
Proof.
  intros H. revert st. induction H as [|a acts Ha _ IH]; intros st; simpl;
    [reflexivity|].
  rewrite IH. apply step_snapshots_unchanged, Ha.
Qed.

Lemma step_snapshots_kept st a m :
  is_Some (monthlySnapshots st !! m) -> is_Some (monthlySnapshots (step st a) !! m).
Proof.
  intros H. destruct a; try (rewrite step_snapshots_unchanged; [exact H | tauto]).
  simpl. rewrite lookup_insert. destruct (decide _); [eauto | exact H].
Qed.

(** X17. Only rendering a monthly report writes a snapshot: every other
    action leaves all snapshots as they are, whatever it changes in the
    ledgers.  And no action removes a snapshot: a month that has one keeps
    one. *)
Theorem snapshots_written_only_by_monthly_report (st : State) (acts : list Action) :
  (Forall (fun a => ~ isMonthlyReport a) acts ->
   monthlySnapshots (run st acts) = monthlySnapshots st)
  /\ forall m, is_Some (monthlySnapshots st !! m) ->
               is_Some (monthlySnapshots (run st acts) !! m).
Proof.
  split; [apply run_snapshots_unchanged|].
  revert st. induction acts as [|a acts IH]; intros st m H; simpl; [exact H|].
  apply IH, step_snapshots_kept, H.
Qed.

(** X18. The yearly summary shows for a month that has a snapshot the totals
    of the monthly report that wrote it, whatever was added, sold, edited or
    deleted since, as long as no monthly report was rendered again. *)
Theorem renderYearly_shows_last_monthly_report
    (now reportMonth today' : string) (st : State) (acts : list Action) :
  Forall (fun a => ~ isMonthlyReport a) acts ->
  let month := viewMonth (slice0 10 now) reportMonth in
  let report := fst (renderMonthlyReport now reportMonth st) in
  let row :=
    yearRow today' (run (snd (renderMonthlyReport now reportMonth st)) acts) month in
  y_itemsTotal row == rep_grand report
  /\ y_salesTotal row == rep_salesTotal report
  /\ y_salesProfit row == rep_salesProfit report
  /\ y_combined row == rep_grand report + rep_salesTotal report.
Proof.
  intros H. cbv zeta. unfold yearRow.
  rewrite (run_snapshots_unchanged acts _ H). simpl.
  rewrite lookup_insert_eq. simpl. rewrite !orZero_eq. repeat split; reflexivity.
Qed.

Lemma renderYearly_shows_last_monthly_report_witness :
  let month := viewMonth (slice0 10 "2024-01-01T08:00:00.000Z") "" in
  let report := fst (renderMonthlyReport "2024-01-01T08:00:00.000Z" "" emptyState) in
  let row :=
    yearRow "2024-01-31"
      (run (snd (renderMonthlyReport "2024-01-01T08:00:00.000Z" "" emptyState))
         [AddItem "2024-01-05" "Rice" (Num 10%Q) (Num 50) "2024-01-05";
          riceSaleAction])
      month in
  y_itemsTotal row == rep_grand report
  /\ y_salesTotal row == rep_salesTotal report
  /\ y_salesProfit row == rep_salesProfit report
  /\ y_combined row == rep_grand report + rep_salesTotal report.
Proof.
  apply (renderYearly_shows_last_monthly_report "2024-01-01T08:00:00.000Z" ""
           "2024-01-31" emptyState).
  repeat constructor; intros H; exact H.
Defined.

(** ** Reports after an addition and after a sale *)

Lemma getLatestPrice_newItem today f p q d :
  getLatestPrice (newItem today f p q d) = p.
Proof. reflexivity. Qed.




Lemma snapshots_written_only_by_monthly_report_witness :
  (Forall (fun a => ~ isMonthlyReport a)
     [AddItem "2024-01-05" "Rice" (Num 10%Q) (Num 50) "2024-01-05"; riceSaleAction] ->
   monthlySnapshots
     (run snapshotState
        [AddItem "2024-01-05" "Rice" (Num 10%Q) (Num 50) "2024-01-05";
         riceSaleAction])
   = monthlySnapshots snapshotState)
  /\ forall m, is_Some (monthlySnapshots snapshotState !! m) ->
               is_Some (monthlySnapshots
                          (run snapshotState
                             [AddItem "2024-01-05" "Rice" (Num 10%Q) (Num 50)
                                "2024-01-05"; riceSaleAction]) !! m).
Proof.
  exact (snapshots_written_only_by_monthly_report snapshotState
           [AddItem "2024-01-05" "Rice" (Num 10%Q) (Num 50) "2024-01-05";
            riceSaleAction]).
Defined.

(** X20. A recorded sale shows in the monthly report of the month of its
    date: the sales total grows by price times quantity, the profit total
    by the profit of the sale and the number of sales by one, while the
    sales of every other month are as before. *)
Theorem recordSale_raises_sales_total
    (today date buyer address contact itemName : string) (p : Q) (q : Z)
    (manual : option (parsed Q)) (st st' : State) (now reportMonth : string) :
  recordSale today date buyer address contact itemName (Num p) (Num q) manual st
    = Saved st' ->
  exists sale,
    sales st' = sales st ++ [sale]
    /\ s_total sale = (p * inject_Z q)%Q
    /\ (viewMonth (slice0 10 now) reportMonth = slice0 7 date ->
        rep_salesTotal (fst (renderMonthlyReport now reportMonth st'))
        = (rep_salesTotal (fst (renderMonthlyReport now reportMonth st))
           + p * inject_Z q)%Q
        /\ rep_salesProfit (fst (renderMonthlyReport now reportMonth st'))
           = (rep_salesProfit (fst (renderMonthlyReport now reportMonth st))
              + orZero (s_profit sale))%Q
        /\ rep_salesCount (fst (renderMonthlyReport now reportMonth st'))
           = S (rep_salesCount (fst (renderMonthlyReport now reportMonth st))))
    /\ (viewMonth (slice0 10 now) reportMonth <> slice0 7 date ->
        rep_monthSales (fst (renderMonthlyReport now reportMonth st'))
        = rep_monthSales (fst (renderMonthlyReport now reportMonth st))).
Proof.
  unfold recordSale. intros H.
  destruct (_ || _) eqn:Hv in H; [discriminate|].
  assert (Hd : is_empty date = false).
  { repeat (apply orb_false_iff in Hv; destruct Hv as [Hv _]). exact Hv. }
  destruct (getItem _ (items st)) as [item|]; [|discriminate].
  injection H as <-. eexists. split; [reflexivity|]. split; [reflexivity|].
  simpl. unfold salesOfMonth. rewrite !filter_app.
  match goal with
  | |- context [filter ?P [?s]] =>
      rewrite (filter_cons P s []), (filter_nil P)
  end.
  simpl. rewrite (ymd_dated today date Hd).
  assert (Hym : ym (slice0 10 now) date = slice0 7 date)
    by (unfold ym; rewrite (ymd_dated _ date Hd); reflexivity).
  rewrite Hym. split.
  - intros E. rewrite decide_True by (symmetry; exact E).
    unfold sumTotal, sumProfit. rewrite !fold_left_app, length_app. simpl.
    repeat split. lia.
  - intros E. rewrite decide_False by congruence. rewrite app_nil_r. reflexivity.
Qed.

Lemma recordSale_raises_sales_total_witness :
  exists sale,
    sales soldState = sales riceState ++ [sale]
    /\ s_total sale = (12 * inject_Z 5)%Q
    /\ (viewMonth (slice0 10 "2024-01-31T10:00:00.000Z") "" = slice0 7 "2024-01-10" ->
        rep_salesTotal (fst (renderMonthlyReport "2024-01-31T10:00:00.000Z" "" soldState))
        = (rep_salesTotal (fst (renderMonthlyReport "2024-01-31T10:00:00.000Z" ""
                                  riceState))
           + 12 * inject_Z 5)%Q
        /\ rep_salesProfit (fst (renderMonthlyReport "2024-01-31T10:00:00.000Z" ""
                                   soldState))
           = (rep_salesProfit (fst (renderMonthlyReport "2024-01-31T10:00:00.000Z"
                                      "" riceState))
              + orZero (s_profit sale))%Q
        /\ rep_salesCount (fst (renderMonthlyReport "2024-01-31T10:00:00.000Z" ""
                                  soldState))
           = S (rep_salesCount (fst (renderMonthlyReport "2024-01-31T10:00:00.000Z"
                                       "" riceState))))
    /\ (viewMonth (slice0 10 "2024-01-31T10:00:00.000Z") "" <> slice0 7 "2024-01-10" ->
        rep_monthSales (fst (renderMonthlyReport "2024-01-31T10:00:00.000Z" ""
                               soldState))
        = rep_monthSales (fst (renderMonthlyReport "2024-01-31T10:00:00.000Z" ""
                                 riceState))).
Proof.
  apply (recordSale_raises_sales_total "2024-01-10" "2024-01-10" "Ann"
           "1 Main St" "555" "Rice" 12 5 None riceState soldState).
  vm_compute. reflexivity.
Defined.

(** ** The months of a year *)

Lemma append_inj (p a b : string) : String.append p a = String.append p b -> a = b.
Proof. induction p as [|c p IH]; simpl; [auto|]. intros [= H]. auto. Qed.

(** X21. The yearly summary has twelve rows with twelve different month
    keys, whatever the year: no month is counted twice. *)
Theorem monthsOf_distinct (year : Z) :
  length (monthsOf year) = 12%nat /\ NoDup (monthsOf year).
Proof.
  split; [reflexivity|]. unfold monthsOf.
  change (NoDup
            (map (String.append (pretty year))
               (map (fun i : nat =>
                       String.append "-" (padStart2 (pretty (i + 1)%nat)))
                  (seq 0 12)))).
  apply NoDup_fmap_2_strong.
  - intros a b _ _. apply append_inj.
  - apply (bool_decide_unpack _). vm_compute. reflexivity.
Qed.

(** ** Which submissions are accepted *)



(** ** The quantity controls *)

(** X24. An inline quantity edit on a stored item sets the stock of the
    month shown to the number typed, or to 0 when the entry is negative or
    unparsable; it leaves the other months, the price history, the other
    items and the sales alone, and it logs the change unless the stock was
    already at that value. *)
Theorem setQuantity_sets_stock
    (today reportMonth key : string) (value : parsed Z) (st : State) (item : Item) :
  getItem key (items st) = Some item ->
  let month := viewMonth today reportMonth in
  let typed := match value with Num q => Z.max 0 q | NaN => 0 end in
  let st' := persisted st (setQuantity today reportMonth key value st) in
  exists item',
    getItem key (items st') = Some item'
    /\ stock item' month = typed
    /\ (forall m, m <> month -> stock item' m = stock item m)
    /\ priceHistory item' = priceHistory item
    /\ (typed = stock item month -> qtyHistory item' = qtyHistory item)
    /\ (typed <> stock item month ->
        qtyHistory item'
        = qtyHistory item
          ++ [mkQtyEntry month today (typed - stock item month) "inlineEdit"])
    /\ (forall k, k <> key -> getItem k (items st') = getItem k (items st))
    /\ sales st' = sales st.
Proof.
  intros Hitem. cbv zeta. unfold setQuantity. rewrite Hitem. simpl.
  assert (E : match value with
              | NaN => 0
              | Num q => if q <? 0 then 0 else q
              end = match value with Num q => Z.max 0 q | NaN => 0 end).
  { destruct value as [|q]; [reflexivity|].
    destruct (q <? 0) eqn:Hq; [apply Z.ltb_lt in Hq | apply Z.ltb_ge in Hq]; lia. }
  rewrite E. eexists. split; [apply getItem_setItem_eq|].
  rewrite stock_logQuantityChange, stock_setStock.
  split; [rewrite decide_True by reflexivity; reflexivity|].
  split.
  { intros m Hm. rewrite stock_logQuantityChange, stock_setStock.
    rewrite decide_False by congruence. reflexivity. }
  unfold logQuantityChange.
  split; [destruct (decide _); reflexivity|].
  split; [intros Ht; rewrite decide_True by lia; reflexivity|].
  split; [intros Ht; rewrite decide_False by lia; reflexivity|].
  split; [|reflexivity].
  intros k Hk. apply getItem_setItem_ne. congruence.
Qed.

Lemma setQuantity_sets_stock_witness :
  let month := viewMonth "2024-01-06" "2024-01" in
  let typed := match Num (-3) with Num q => Z.max 0 q | NaN => 0 end in
  let st' := persisted riceState
               (setQuantity "2024-01-06" "2024-01" "rice" (Num (-3)) riceState) in
  exists item',
    getItem "rice" (items st') = Some item'
    /\ stock item' month = typed
    /\ (forall m, m <> month -> stock item' m = stock (itemAt "rice" riceState) m)
    /\ priceHistory item' = priceHistory (itemAt "rice" riceState)
    /\ (typed = stock (itemAt "rice" riceState) month ->
        qtyHistory item' = qtyHistory (itemAt "rice" riceState))
    /\ (typed <> stock (itemAt "rice" riceState) month ->
        qtyHistory item'
        = qtyHistory (itemAt "rice" riceState)
          ++ [mkQtyEntry month "2024-01-06"
                (typed - stock (itemAt "rice" riceState) month) "inlineEdit"])
    /\ (forall k, k <> "rice" -> getItem k (items st') = getItem k (items riceState))
    /\ sales st' = sales riceState.
Proof.
  apply (setQuantity_sets_stock "2024-01-06" "2024-01" "rice" (Num (-3)) riceState
           (itemAt "rice" riceState)).
  vm_compute. reflexivity.
Defined.



